(** * display_pin.py: widgets showing the state and value of a pin

    A shallow embedding of the value path of [display_pin.py] (v0.13): the
    panel class [DisplayPin] and its data widgets [DisplayPinDataAnalog],
    [DisplayPinDataPWM], [DisplayPinDataBooleanText] (with its two
    specialisations) and [DisplayPinDataMusic].

    Python objects are mutated in place and an exception leaves every
    mutation made before it in place, so a method is a function from the
    object's state to an outcome paired with the state it leaves behind.
    Every write into a drawable (bitmap fill, pixel write, position
    assignment, label text assignment) is also appended to a trace carried
    by the widget, which plays the role of a mutation spy.

    What is left out: floats (values are [None], booleans, ints, strings
    and tuples, and [a * v / d] is the exact quotient), the colours and
    palettes, and the static scale the bar graph draws once from the
    (float) reference voltage; the constructors of the [displayio] and
    [adafruit_display_text] objects are taken to return.  The static scale
    of the waveform widget is modelled on its own, after the panel. *)

From Stdlib Require Import ZArith Lia Ascii String.
From stdpp Require Import base decidable option list strings pretty gmap.

Set Warnings "-register-all".
Local Open Scope Z_scope.

(** ** Python values and exceptions *)

(** The values that reach a [value] setter: [None], booleans, integers,
    strings and tuples.  Integers are Python's unbounded ints. *)
Inductive pyval : Type :=
  | PNone
  | PBool (b : bool)
  | PInt (z : Z)
  | PStr (s : string)
  | PTuple (l : list pyval).

Inductive exn : Type :=
  | TypeError
  | IndexError
  | ZeroDivisionError
  | UnboundLocalError.

Inductive outcome (A : Type) : Type :=
  | Ok (a : A)
  | Raise (e : exn).
Arguments Ok {A} a.
Arguments Raise {A} e.

(** A method on an object of state [S] returning an [A]. *)
Definition M (S A : Type) : Type := S -> outcome A * S.

Definition ret {S A} (a : A) : M S A := fun s => (Ok a, s).
Definition raise {S A} (e : exn) : M S A := fun s => (Raise e, s).
Definition bind {S A B} (c : M S A) (k : A -> M S B) : M S B :=
  fun s => match c s with
           | (Ok a, s') => k a s'
           | (Raise e, s') => (Raise e, s')
           end.
Definition get {S} : M S S := fun s => (Ok s, s).
Definition modify {S} (f : S -> S) : M S unit := fun s => (Ok tt, f s).
(** An expression that may raise, evaluated without touching the object. *)
Definition lift {S A} (o : outcome A) : M S A := fun s => (o, s).

Declare Scope py_scope.
Delimit Scope py_scope with py.
Notation "x <- c ;; k" := (bind c (fun x => k))
  (at level 100, c at next level, right associativity) : py_scope.
Notation "c ;;; k" := (bind c (fun _ => k))
  (at level 100, right associativity) : py_scope.
Local Open Scope py_scope.

(** [for x in xs: body(x)] *)
Fixpoint for_each {S A} (xs : list A) (body : A -> M S unit) : M S unit :=
  match xs with
  | [] => ret tt
  | x :: xs' => body x ;;; for_each xs' body
  end.

(** [range(a, b)] *)
Definition range (a b : Z) : list Z := seqZ a (b - a).

(** The number a value stands for in arithmetic and ordering: ints, and
    booleans as 0 and 1. *)
Definition as_num (v : pyval) : option Z :=
  match v with
  | PInt z => Some z
  | PBool b => Some (Z.b2z b)
  | _ => None
  end.

Definition is_none (v : pyval) : bool :=
  match v with PNone => true | _ => false end.

Definition isinstance_str (v : pyval) : bool :=
  match v with PStr _ => true | _ => false end.

(** [a == b] *)
Fixpoint py_eqb (a b : pyval) : bool :=
  match a, b with
  | PNone, PNone => true
  | PStr s, PStr t => bool_decide (s = t)
  | PTuple l, PTuple k =>
      (fix go (l k : list pyval) : bool :=
         match l, k with
         | [], [] => true
         | x :: l', y :: k' => py_eqb x y && go l' k'
         | _, _ => false
         end) l k
  | _, _ =>
      match as_num a, as_num b with
      | Some x, Some y => x =? y
      | _, _ => false
      end
  end.

(** [a < b] and [a >= b] against an int: a [TypeError] for strings and
    tuples ([None] never gets there in this program). *)
Definition py_lt (v : pyval) (n : Z) : outcome bool :=
  match as_num v with
  | Some z => Ok (z <? n)
  | None => Raise TypeError
  end.

Definition py_ge (v : pyval) (n : Z) : outcome bool :=
  match as_num v with
  | Some z => Ok (n <=? z)
  | None => Raise TypeError
  end.

(** [bool(v)] *)
Definition py_bool (v : pyval) : bool :=
  match v with
  | PNone => false
  | PBool b => b
  | PInt z => negb (z =? 0)
  | PStr s => negb (bool_decide (s = ""))
  | PTuple l => match l with [] => false | _ => true end
  end.

(** [v[i]] for a constant index [i]. *)
Definition py_getitem (v : pyval) (i : nat) : outcome pyval :=
  match v with
  | PTuple l => match l !! i with
                | Some x => Ok x
                | None => Raise IndexError
                end
  | PStr s => match String.get i s with
              | Some c => Ok (PStr (String c EmptyString))
              | None => Raise IndexError
              end
  | _ => Raise TypeError
  end.

(** [int(a * v / d)] for ints [a] and [d]: true division followed by
    truncation toward zero.  The quotient is taken exactly; the rounding of
    the intermediate float is not part of the model. *)
Definition int_scaled (a : Z) (v : pyval) (d : Z) : outcome Z :=
  match as_num v with
  | Some z => if d =? 0 then Raise ZeroDivisionError else Ok (Z.quot (a * z) d)
  | None => Raise TypeError
  end.

(** [a // b] *)
Definition floordiv (a b : Z) : outcome Z :=
  if b =? 0 then Raise ZeroDivisionError else Ok (a `div` b).

(** [round(v)] of an int or a boolean. *)
Definition py_round (v : pyval) : outcome Z :=
  match as_num v with
  | Some z => Ok z
  | None => Raise TypeError
  end.

(** ["{:d}Hz".format(n)] *)
Definition format_hz (n : Z) : string := pretty n +:+ "Hz".

(** [s.split(":")[0]] *)
Fixpoint split_colon_first (s : string) : string :=
  match s with
  | EmptyString => EmptyString
  | String c s' =>
      if Ascii.eqb c ":"%char then EmptyString
      else String c (split_colon_first s')
  end.

Definition ascii_upper (c : Ascii.ascii) : Ascii.ascii :=
  let n := Ascii.nat_of_ascii c in
  if ((97 <=? n)%nat && (n <=? 122)%nat)%bool
  then Ascii.ascii_of_nat (n - 32) else c.

(** [s.upper()] on ASCII text. *)
Fixpoint str_upper (s : string) : string :=
  match s with
  | EmptyString => EmptyString
  | String c s' => String (ascii_upper c) (str_upper s')
  end.

(** ** Drawables *)

(** One write into a drawable. *)
Inductive mutation : Type :=
  | MFill (c : Z)
  | MPixel (x y c : Z)
  | MSetX (x : Z)
  | MSetText (s : string).

(** Modelled from the spec: the indexed bitmap collaborator
    ([displayio.Bitmap]), "a 2D grid of small integer indices ... mutable
    per-pixel", "supporting per-pixel set-by-index and bulk fill".  A pixel
    holds the last index written to it, or the last fill value; a write
    outside the grid raises [IndexError] and changes nothing.  The label
    and the tile grid, the other two collaborators, appear in the widgets
    as the one attribute the setters write: the label's [text] and the
    tile grid's [x], which starts at 0. *)
Record Bitmap : Type := mkBitmap {
  bmp_width : Z;
  bmp_height : Z;
  bmp_fill_value : Z;
  bmp_pixels : gmap (Z * Z) Z
}.

Definition Bitmap_new (width height : Z) : Bitmap :=
  mkBitmap width height 0 ∅.

Definition Bitmap_fill (c : Z) (b : Bitmap) : Bitmap :=
  mkBitmap (bmp_width b) (bmp_height b) c ∅.

Definition Bitmap_in_bounds (b : Bitmap) (x y : Z) : bool :=
  (0 <=? x) && (x <? bmp_width b) && (0 <=? y) && (y <? bmp_height b).

Definition Bitmap_set (x y c : Z) (b : Bitmap) : Bitmap :=
  mkBitmap (bmp_width b) (bmp_height b) (bmp_fill_value b)
           (<[(x, y) := c]> (bmp_pixels b)).

Definition Bitmap_get (b : Bitmap) (x y : Z) : Z :=
  default (bmp_fill_value b) (bmp_pixels b !! (x, y)).

(** The [if]/[elif] chain that opens the value setters of both graphical
    widgets and computes [c_value]. *)
Definition clamp (value_range : Z) (value : pyval) : outcome pyval :=
  if is_none value then Ok value
  else match py_lt value 0 with
       | Raise e => Raise e
       | Ok true => Ok (PInt 0)
       | Ok false =>
           match py_ge value value_range with
           | Raise e => Raise e
           | Ok true => Ok (PInt (value_range - 1))
           | Ok false => Ok value
           end
       end.

(** ** class DisplayPinDataAnalog: a lightweight bar graph *)
Module DisplayPinDataAnalog.

(** The attributes the value path reads or writes.  [line_x] is
    [self._bargraph_line_dob.x].  The palette and the static scale built
    by [_makeScale] (float arithmetic on [vref]) are never touched after
    construction and are left out. *)
Record t : Type := mk {
  _line_scfactor : Z;
  _value_range : Z;
  _value : pyval;
  line_x : Z;
  trace : list mutation
}.

Definition set__value (v : pyval) (self : t) : t :=
  mk (_line_scfactor self) (_value_range self) v (line_x self) (trace self).

Definition set_line_x (x : Z) (self : t) : t :=
  mk (_line_scfactor self) (_value_range self) (_value self) x
     (trace self ++ [MSetX x]).

Definition _setLinePos (value : pyval) : M t unit :=
  if is_none value then ret tt
  else
    self <- get ;;
    new_x <- lift (int_scaled (_line_scfactor self + 1) value
                              (_value_range self)) ;;
    if negb (line_x self =? new_x) then modify (set_line_x new_x)
    else ret tt.

(** [@value.setter] *)
Definition set_value (value : pyval) : M t unit :=
  self <- get ;;
  c_value <- lift (clamp (_value_range self) value) ;;
  modify (set__value c_value) ;;;
  _setLinePos c_value.

(** [__init__(width, value=None, value_range=65536, line_width=2)] *)
Definition init (width : Z) (value : pyval) (value_range line_width : Z)
  : outcome t :=
  let self := mk (width - line_width) value_range PNone 0 [] in
  if is_none value then Ok self
  else match set_value value self with
       | (Ok _, self') => Ok self'
       | (Raise e, _) => Raise e
       end.

End DisplayPinDataAnalog.

(** ** class DisplayPinDataPWM: a single cycle graph *)
Module DisplayPinDataPWM.

Definition _LINE_COL_IDX : Z := 1.

Record t : Type := mk {
  _line_scfactor : Z;
  _value_range : Z;
  _cycle_wave_width : Z;
  _cycle_wave_height : Z;
  _cycle_wave_bitmap : Bitmap;
  _cycle_scale_x_pos : pyval;
  _value : pyval;
  trace : list mutation
}.

Definition set__value (v : pyval) (self : t) : t :=
  mk (_line_scfactor self) (_value_range self) (_cycle_wave_width self)
     (_cycle_wave_height self) (_cycle_wave_bitmap self)
     (_cycle_scale_x_pos self) v (trace self).

Definition set__cycle_scale_x_pos (e : pyval) (self : t) : t :=
  mk (_line_scfactor self) (_value_range self) (_cycle_wave_width self)
     (_cycle_wave_height self) (_cycle_wave_bitmap self)
     e (_value self) (trace self).

Definition write_bitmap (b : Bitmap) (m : mutation) (self : t) : t :=
  mk (_line_scfactor self) (_value_range self) (_cycle_wave_width self)
     (_cycle_wave_height self) b
     (_cycle_scale_x_pos self) (_value self) (trace self ++ [m]).

(** [bmp.fill(c)] *)
Definition bmp_fill (c : Z) : M t unit :=
  modify (fun self =>
            write_bitmap (Bitmap_fill c (_cycle_wave_bitmap self)) (MFill c)
                         self).

(** [bmp[x, y] = c] *)
Definition bmp_setitem (x y c : Z) : M t unit :=
  fun self =>
    if Bitmap_in_bounds (_cycle_wave_bitmap self) x y
    then (Ok tt, write_bitmap (Bitmap_set x y c (_cycle_wave_bitmap self))
                              (MPixel x y c) self)
    else (Raise IndexError, self).

Definition _waveXPos (self : t) (value : pyval) : outcome pyval :=
  if is_none value then Ok PNone
  else if py_eqb value (PInt 0) then Ok (PStr "low")
  else if (65536 <=? _value_range self)
          && py_eqb value (PInt (_value_range self - 1))
  then Ok (PStr "high")
  else match int_scaled (_line_scfactor self + 1) value
                        (_value_range self) with
       | Ok x => Ok (PInt x)
       | Raise e => Raise e
       end.

Definition _redrawWave (value : pyval) : M t unit :=
  self <- get ;;
  negedge_x <- lift (_waveXPos self value) ;;
  if py_eqb negedge_x (_cycle_scale_x_pos self) then ret tt
  else
    modify (set__cycle_scale_x_pos negedge_x) ;;;
    bmp_fill 0 ;;;
    if is_none value then ret tt
    else if py_eqb negedge_x (PStr "low") || py_eqb negedge_x (PStr "high")
    then
      let y_level := if py_eqb negedge_x (PStr "high") then 0
                     else _cycle_wave_height self - 1 in
      for_each (range 0 (_cycle_wave_width self))
               (fun x_pos => bmp_setitem x_pos y_level _LINE_COL_IDX)
    else
      let top_y := 0 in
      for_each (range top_y (_cycle_wave_height self))
               (fun y_pos => bmp_setitem 0 y_pos _LINE_COL_IDX) ;;;
      match as_num negedge_x with
      | None => raise TypeError
      | Some e =>
          for_each (range 1 e)
                   (fun x_pos => bmp_setitem x_pos top_y _LINE_COL_IDX) ;;;
          (if negb (e =? 0)
           then for_each (range top_y (_cycle_wave_height self))
                         (fun y_pos => bmp_setitem e y_pos _LINE_COL_IDX)
           else ret tt) ;;;
          for_each (range (e + 1) (_cycle_wave_width self))
                   (fun x_pos =>
                      bmp_setitem x_pos (_cycle_wave_height self - 1)
                                  _LINE_COL_IDX)
      end.

(** [@value.setter] *)
Definition set_value (value : pyval) : M t unit :=
  self <- get ;;
  c_value <- lift (clamp (_value_range self) value) ;;
  if negb (py_eqb (_value self) c_value)
  then modify (set__value c_value) ;;; _redrawWave c_value
  else ret tt.

(** [__init__(width, height, value=None, value_range=65536, line_width=1)];
    the scale is three rows high and the wave bitmap takes
    [height - scale_height - 3] rows. *)
Definition init (width height : Z) (value : pyval)
                (value_range line_width : Z) : outcome t :=
  let scale_height := 3 in
  let wave_height := height - scale_height - 3 in
  let self := mk (width - line_width) value_range width wave_height
                 (Bitmap_new width wave_height) PNone PNone [] in
  match _waveXPos self value with
  | Raise e => Raise e
  | Ok x_pos =>
      let self := set__cycle_scale_x_pos x_pos self in
      if is_none value then Ok self
      else match set_value value self with
           | (Ok _, self') => Ok self'
           | (Raise e, _) => Raise e
           end
  end.

End DisplayPinDataPWM.

(** ** class DisplayPinDataBooleanText and its two specialisations *)
Module DisplayPinDataBooleanText.

(** [text] is [self._digstate_dob.text]; the two class constants are
    carried by the object, as subclasses override them. *)
Record t : Type := mk {
  _FALSE_TEXT : string;
  _TRUE_TEXT : string;
  _value : pyval;
  text : string;
  trace : list mutation
}.

Definition set__value (v : pyval) (self : t) : t :=
  mk (_FALSE_TEXT self) (_TRUE_TEXT self) v (text self) (trace self).

Definition set_text (s : string) (self : t) : t :=
  mk (_FALSE_TEXT self) (_TRUE_TEXT self) (_value self) s
     (trace self ++ [MSetText s]).

Definition _setDigstate (value : pyval) : M t unit :=
  if is_none value then modify (set_text "")
  else
    self <- get ;;
    modify (set_text (if py_bool value then _TRUE_TEXT self
                      else _FALSE_TEXT self)).

(** [@value.setter] *)
Definition set_value (value : pyval) : M t unit :=
  self <- get ;;
  let new_value := if is_none value then PNone
                   else PBool (py_bool value) in
  if negb (py_eqb (_value self) new_value)
  then modify (set__value new_value) ;;; _setDigstate new_value
  else ret tt.

(** [__init__(height, value=None, font=terminalio.FONT)], for a class with
    the given pair of texts; [font_bb] is [font.get_bounding_box()]. *)
Definition init (false_text true_text : string)
                (height : Z) (value : pyval) (font_bb : Z * Z)
  : outcome t :=
  match floordiv height ((font_bb.2 * 9) `div` 14) with
  | Raise e => Raise e
  | Ok scale =>
      let self := mk false_text true_text PNone "" [] in
      if is_none value then Ok self
      else match set_value value self with
           | (Ok _, self') => Ok self'
           | (Raise e, _) => Raise e
           end
  end.

End DisplayPinDataBooleanText.

(** [class DisplayPinDataDigital(DisplayPinDataBooleanText)] *)
Module DisplayPinDataDigital.
Definition _FALSE_TEXT : string := "low".
Definition _TRUE_TEXT : string := "HIGH".
Definition init := DisplayPinDataBooleanText.init _FALSE_TEXT _TRUE_TEXT.
End DisplayPinDataDigital.

(** [class DisplayPinDataTouch(DisplayPinDataBooleanText)] *)
Module DisplayPinDataTouch.
Definition _FALSE_TEXT : string := "-----".
Definition _TRUE_TEXT : string := "Touch".
Definition init := DisplayPinDataBooleanText.init _FALSE_TEXT _TRUE_TEXT.
End DisplayPinDataTouch.

(** ** class DisplayPinDataMusic: a note name as a string or frequency as a
    number *)
Module DisplayPinDataMusic.

(** [text] is [self._note_dob.text]. *)
Record t : Type := mk {
  _value : pyval;
  text : string;
  trace : list mutation
}.

Definition set__value (v : pyval) (self : t) : t :=
  mk v (text self) (trace self).

Definition set_text (s : string) (self : t) : t :=
  mk (_value self) s (trace self ++ [MSetText s]).

Definition _setNote (value : pyval) : M t unit :=
  match value with
  | PNone => modify (set_text "")
  | PStr s => modify (set_text (split_colon_first s))
  | _ =>
      n <- lift (py_round value) ;;
      modify (set_text (format_hz n))
  end.

(** [@value.setter] *)
Definition set_value (value : pyval) : M t unit :=
  self <- get ;;
  if negb (py_eqb (_value self) value)
  then
    modify (set__value value) ;;;
    text_value <-
      (if isinstance_str value then ret value
       else
         v1 <- lift (py_getitem value 1) ;;
         if is_none v1 then lift (py_getitem value 0) else ret v1) ;;
    _setNote text_value
  else ret tt.

(** [__init__(height, value=None, font=terminalio.FONT)] *)
Definition init (height : Z) (value : pyval) (font_bb : Z * Z)
  : outcome t :=
  match floordiv height ((font_bb.2 * 18) `div` 28) with
  | Raise e => Raise e
  | Ok scale =>
      let self := mk PNone "" [] in
      if is_none value then Ok self
      else match set_value value self with
           | (Ok _, self') => Ok self'
           | (Raise e, _) => Raise e
           end
  end.

End DisplayPinDataMusic.

(** ** class DisplayPin *)

(** The object held in [DisplayPin._data]. *)
Inductive widget : Type :=
  | WAnalog (a : DisplayPinDataAnalog.t)
  | WPWM (p : DisplayPinDataPWM.t)
  | WBooleanText (b : DisplayPinDataBooleanText.t)
  | WMusic (m : DisplayPinDataMusic.t).

(** [w.value = v], dispatched on the class of [w]. *)
Definition widget_set_value (v : pyval) : M widget unit :=
  fun w =>
    match w with
    | WAnalog a =>
        let (r, a') := DisplayPinDataAnalog.set_value v a in (r, WAnalog a')
    | WPWM p =>
        let (r, p') := DisplayPinDataPWM.set_value v p in (r, WPWM p')
    | WBooleanText b =>
        let (r, b') := DisplayPinDataBooleanText.set_value v b in
        (r, WBooleanText b')
    | WMusic m =>
        let (r, m') := DisplayPinDataMusic.set_value v m in (r, WMusic m')
    end.

Definition widget_trace (w : widget) : list mutation :=
  match w with
  | WAnalog a => DisplayPinDataAnalog.trace a
  | WPWM p => DisplayPinDataPWM.trace p
  | WBooleanText b => DisplayPinDataBooleanText.trace b
  | WMusic m => DisplayPinDataMusic.trace m
  end.

Definition omap_widget {A} (f : A -> widget) (o : outcome A)
  : outcome (option widget) :=
  match o with
  | Ok a => Ok (Some (f a))
  | Raise e => Raise e
  end.

Module DisplayPin.

Definition _NAME_WIDTH : nat := 3.

(** [name_text] is [self._name_dob.text]. *)
Record t : Type := mk {
  name_text : string;
  _units : string;
  _mode : string;
  _user_value : pyval;
  _data : option widget
}.

Definition set__user_value (v : pyval) (self : t) : t :=
  mk (name_text self) (_units self) (_mode self) v (_data self).

Definition set__data (d : option widget) (self : t) : t :=
  mk (name_text self) (_units self) (_mode self) (_user_value self) d.

Definition set__mode (m : string) (self : t) : t :=
  mk (name_text self) (_units self) m (_user_value self) (_data self).

(** [@property value] *)
Definition value (self : t) : pyval := _user_value self.

(** [@value.setter] *)
Definition set_value (data : pyval) : M t unit :=
  modify (set__user_value data) ;;;
  self <- get ;;
  match _data self with
  | None => ret tt
  | Some w =>
      fun self => let (r, w') := widget_set_value data w in
                  (r, set__data (Some w') self)
  end.

(** [@mode.setter] *)
Definition set_mode (new_mode : string) : M t unit :=
  modify (set__mode new_mode).

(** The local [value_range] after the [if]/[elif]/[else] on the units:
    in the [else] branch a [ValueError] object is built and dropped, and
    the name stays unbound. *)
Definition units_value_range (units : string) : option Z :=
  if bool_decide (units = "CP") then Some 65536
  else if bool_decide (units = "MP") then Some 1024
  else None.

(** Reading the local [value_range]; CircuitPython reports the unbound
    local as a [NameError], of which [UnboundLocalError] is the CPython
    subclass. *)
Definition read_local (value_range : option Z) : outcome Z :=
  match value_range with
  | Some r => Ok r
  | None => Raise UnboundLocalError
  end.

(** The chain of [if mode ...] that builds [self._data].  The bar graph
    gets the panel's font (for its labels only); the text widgets are
    built without a font argument and so with their default,
    [terminalio.FONT], whose bounding box is [terminal_bb]. *)
Definition make_data (terminal_bb : Z * Z)
                     (mode : string) (value_range : option Z)
                     (data_width height : Z)
  : outcome (option widget) :=
  if bool_decide (mode = "read_analog")
     || bool_decide (mode = "write_trueanalog")
  then match read_local value_range with
       | Raise e => Raise e
       | Ok r => omap_widget WAnalog
                   (DisplayPinDataAnalog.init data_width PNone r 2)
       end
  else if bool_decide (mode = "read_digital")
          || bool_decide (mode = "write_digital")
  then omap_widget WBooleanText
         (DisplayPinDataDigital.init height PNone terminal_bb)
  else if bool_decide (mode = "write_analog")
  then match read_local value_range with
       | Raise e => Raise e
       | Ok r => omap_widget WPWM
                   (DisplayPinDataPWM.init data_width height PNone r 1)
       end
  else if bool_decide (mode = "touch")
  then omap_widget WBooleanText
         (DisplayPinDataTouch.init height PNone terminal_bb)
  else if bool_decide (mode = "music_frequency")
  then omap_widget WMusic (DisplayPinDataMusic.init height PNone terminal_bb)
  else Ok None.

(** [__init__(name, mode="unused", units="CP", *, value=None, width=120,
    height=18, font=terminalio.FONT)]; [font_bb] is
    [font.get_bounding_box()] and [terminal_bb] that of [terminalio.FONT],
    a constant of the platform. *)
Definition init (terminal_bb : Z * Z) (name mode units : string)
                (value : pyval) (width height : Z) (font_bb : Z * Z)
  : outcome t :=
  let value_range := units_value_range units in
  match floordiv height ((font_bb.2 * 9) `div` 14) with
  | Raise e => Raise e
  | Ok scale =>
      let label_width := Z.of_nat _NAME_WIDTH * scale * font_bb.1 in
      let gap := 4 in
      let data_width := width - label_width - gap in
      match make_data terminal_bb mode value_range data_width height with
      | Raise e => Raise e
      | Ok data =>
          let self := mk (str_upper (String.substring 0 _NAME_WIDTH name))
                         units mode PNone data in
          match set_value value self with
          | (Ok _, self') => Ok self'
          | (Raise e, _) => Raise e
          end
      end
  end.

End DisplayPin.

(** ** Observations used in the statements *)

(** The bar graph marker's x position once [value] has been assigned. *)
Definition position_after (self : DisplayPinDataAnalog.t) (value : pyval)
  : Z :=
  DisplayPinDataAnalog.line_x
    (snd (DisplayPinDataAnalog.set_value value self)).

(** The state of the waveform widget after [bmp[x, y] = c] for each
    [(x, y)] of [pts] in turn, all of them inside the bitmap. *)
Definition paint_pixel (c : Z) (self : DisplayPinDataPWM.t) (pt : Z * Z)
  : DisplayPinDataPWM.t :=
  DisplayPinDataPWM.write_bitmap
    (Bitmap_set pt.1 pt.2 c (DisplayPinDataPWM._cycle_wave_bitmap self))
    (MPixel pt.1 pt.2 c) self.

Definition paint (pts : list (Z * Z)) (c : Z) (self : DisplayPinDataPWM.t)
  : DisplayPinDataPWM.t :=
  foldl (paint_pixel c) self pts.

(** The wave bitmap has the size the widget draws into. *)
Definition wave_fits (self : DisplayPinDataPWM.t) : Prop :=
  bmp_width (DisplayPinDataPWM._cycle_wave_bitmap self)
  = DisplayPinDataPWM._cycle_wave_width self
  /\ bmp_height (DisplayPinDataPWM._cycle_wave_bitmap self)
     = DisplayPinDataPWM._cycle_wave_height self.

(** What no assignment changes in a waveform widget. *)
Definition pwm_geometry (self : DisplayPinDataPWM.t) : Z * Z * Z * Z * Z * Z :=
  (DisplayPinDataPWM._line_scfactor self,
   DisplayPinDataPWM._value_range self,
   DisplayPinDataPWM._cycle_wave_width self,
   DisplayPinDataPWM._cycle_wave_height self,
   bmp_width (DisplayPinDataPWM._cycle_wave_bitmap self),
   bmp_height (DisplayPinDataPWM._cycle_wave_bitmap self)).

(** A method leaves the observation [f] of the object as it was, whether
    it returns or raises. *)
Definition preserves {S A X} (f : S -> X) (c : M S A) : Prop :=
  forall s, f (snd (c s)) = f s.



(** The pixel writes of a flat wave in row [y], in order. *)
Definition flat_points (w y : Z) : list (Z * Z) :=
  (fun x => (x, y)) <$> range 0 w.

(** The object at the point where [_redrawWave] has stored the new edge
    and cleared the bitmap. *)
Definition cleared_for (edge : pyval) (self : DisplayPinDataPWM.t)
  : DisplayPinDataPWM.t :=
  DisplayPinDataPWM.write_bitmap
    (Bitmap_fill 0 (DisplayPinDataPWM._cycle_wave_bitmap self)) (MFill 0)
    (DisplayPinDataPWM.set__cycle_scale_x_pos edge self).

(** ** The static scale of the waveform widget *)

(** [bmp[x, y] = c] on a bitmap that no widget holds yet. *)
Definition bitmap_setitem (x y c : Z) : M Bitmap unit :=
  fun b =>
    if Bitmap_in_bounds b x y then (Ok tt, Bitmap_set x y c b)
    else (Raise IndexError, b).

Module DisplayPinDataPWM_scale.

Definition _SCALE_COL_IDX : Z := 2.

(** [_makeScale(tick_width, width, height, col_idx)], returning the bitmap
    of the pair it builds; [scale_scfactor] is [self._scale_scfactor].
    [major_tick / (ticks - 1)] is a multiple of a quarter, so the product
    with the integer factor is taken exactly before [int] truncates it. *)
Definition _makeScale (scale_scfactor tick_width width height col_idx : Z)
  : outcome Bitmap :=
  let scale_line := Bitmap_new width height in
  let ticks := 5 in
  match
    for_each (range 0 ticks)
      (fun major_tick =>
         let x_pos := Z.quot (major_tick * scale_scfactor) (ticks - 1) in
         for_each (range 0 tick_width)
           (fun t_off_x =>
              for_each (range 0 height)
                (fun t_row => bitmap_setitem (x_pos + t_off_x) t_row col_idx)))
      scale_line
  with
  | (Ok _, b) => Ok b
  | (Raise e, _) => Raise e
  end.

(** The call made by [__init__(width, height, ..., tick_width=1)]:
    [self._scale_scfactor = width - tick_width] and the scale is three rows
    high. *)
Definition init_scale (width tick_width : Z) : outcome Bitmap :=
  let scale_height := 3 in
  _makeScale (width - tick_width) tick_width width scale_height
             _SCALE_COL_IDX.

End DisplayPinDataPWM_scale.

(** ** Further observations used in the statements *)

(** The bitmap after [bmp[x, y] = c] for each [(x, y)] of [pts] in turn,
    all of them inside the bitmap. *)
Definition bitmap_paint (pts : list (Z * Z)) (c : Z) (b : Bitmap) : Bitmap :=
  foldl (fun b pt => Bitmap_set pt.1 pt.2 c b) b pts.

(** Column [x] lies on one of the five ticks of a scale whose ticks are
    [tick_width] wide and spread over [scale_scfactor] columns. *)
Definition on_tick (scale_scfactor tick_width x : Z) : Prop :=
  exists k, 0 <= k < 5
            /\ Z.quot (k * scale_scfactor) 4 <= x
               < Z.quot (k * scale_scfactor) 4 + tick_width.



(** The text a boolean text widget shows for a stored value. *)
Definition shown_text (b : DisplayPinDataBooleanText.t) (v : pyval)
  : string :=
  if is_none v then ""
  else if py_bool v then DisplayPinDataBooleanText._TRUE_TEXT b
       else DisplayPinDataBooleanText._FALSE_TEXT b.

(** The stored value is [None] or a boolean, and the label shows it. *)
Definition bool_text_inv (b : DisplayPinDataBooleanText.t) : Prop :=
  (DisplayPinDataBooleanText._value b = PNone
   \/ exists x, DisplayPinDataBooleanText._value b = PBool x)
  /\ DisplayPinDataBooleanText.text b
     = shown_text b (DisplayPinDataBooleanText._value b).

(** [":" in s] *)
Fixpoint has_colon (s : string) : bool :=
  match s with
  | EmptyString => false
  | String c s' => Ascii.eqb c ":"%char || has_colon s'
  end.

(** * Properties *)

(** ** Python equality and the clamp *)

Lemma py_eqb_refl : forall v, py_eqb v v = true.
Proof.
  fix IH 1. intros [ | b | z | s | l]; simpl.
  - reflexivity.
  - apply Z.eqb_refl.
  - apply Z.eqb_refl.
  - by apply bool_decide_eq_true.
  - induction l as [|x l IHl]; [reflexivity|].
    rewrite (IH x). exact IHl.
Qed.

Lemma clamp_below (r z : Z) : z < 0 -> clamp r (PInt z) = Ok (PInt 0).
Proof.
  intros Hz. unfold clamp, py_lt. simpl.
  destruct (Z.ltb_spec z 0); [reflexivity|lia].
Qed.

Lemma clamp_above (r z : Z) :
  0 <= z -> r <= z -> clamp r (PInt z) = Ok (PInt (r - 1)).
Proof.
  intros Hz Hr. unfold clamp, py_lt, py_ge. simpl.
  destruct (Z.ltb_spec z 0); [lia|].
  destruct (Z.leb_spec r z); [reflexivity|lia].
Qed.

Lemma clamp_inside (r z : Z) :
  0 <= z < r -> clamp r (PInt z) = Ok (PInt z).
Proof.
  intros Hz. unfold clamp, py_lt, py_ge. simpl.
  destruct (Z.ltb_spec z 0); [lia|].
  destruct (Z.leb_spec r z); [lia|reflexivity].
Qed.


(** ** The bar graph *)

Section Analog.
Import DisplayPinDataAnalog.

(** The constructor records the track width, and no assignment changes
    the geometry. *)
Lemma analog_init_geometry width value value_range line_width self :
  init width value value_range line_width = Ok self ->
  _line_scfactor self = width - line_width
  /\ _value_range self = value_range.
Proof.
  unfold init. destruct (is_none value).
  - intros [= <-]. split; reflexivity.
  - unfold set_value, _setLinePos, bind, get, lift, modify, ret. simpl.
    destruct (clamp value_range value) as [c|]; [|discriminate]. simpl.
    destruct (is_none c); [intros [= <-]; split; reflexivity|].
    destruct (int_scaled _ c _) as [x|]; [|discriminate]. simpl.
    destruct (negb _); intros [= <-]; split; reflexivity.
Qed.

Lemma analog_set_value_geometry value self :
  _line_scfactor (snd (set_value value self)) = _line_scfactor self
  /\ _value_range (snd (set_value value self)) = _value_range self.
Proof.
  unfold set_value, _setLinePos, bind, get, lift, modify, ret. simpl.
  destruct (clamp _ value) as [c|]; [|split; reflexivity]. simpl.
  destruct (is_none c); [split; reflexivity|].
  destruct (int_scaled _ c _) as [x|]; [|split; reflexivity]. simpl.
  destruct (negb _); split; reflexivity.
Qed.

(** Assigning a number whose clamp stands for [n]: the setter returns,
    the clamped value is stored and the marker sits at the truncated
    quotient. *)
Lemma analog_set_value_num self value c n :
  clamp (_value_range self) value = Ok c ->
  as_num c = Some n ->
  _value_range self <> 0 ->
  fst (set_value value self) = Ok tt
  /\ _value (snd (set_value value self)) = c
  /\ position_after self value
     = Z.quot ((_line_scfactor self + 1) * n) (_value_range self).
Proof.
  intros Hc Hn Hr. unfold position_after.
  unfold set_value, _setLinePos, bind, get, lift, modify, ret. simpl.
  rewrite Hc. simpl.
  assert (is_none c = false) as -> by (destruct c; done).
  unfold int_scaled. simpl. rewrite Hn.
  destruct (Z.eqb_spec (_value_range self) 0) as [?|_]; [done|]. simpl.
  destruct (Z.eqb_spec (line_x self)
              ((_line_scfactor self + 1) * n ÷ _value_range self))
    as [Heq|Hne]; simpl; auto.
Qed.

End Analog.

Section AnalogClaims.
Import DisplayPinDataAnalog.





End AnalogClaims.

(** ** Methods as state transformers *)

Lemma bind_Ok {S A B} (c : M S A) (k : A -> M S B) s a s' :
  c s = (Ok a, s') -> bind c k s = k a s'.
Proof. intros H. unfold bind. rewrite H. reflexivity. Qed.

Lemma bind_Raise {S A B} (c : M S A) (k : A -> M S B) s e s' :
  c s = (Raise e, s') -> bind c k s = (Raise e, s').
Proof. intros H. unfold bind. rewrite H. reflexivity. Qed.

Section Preserves.
Context {S X : Type} (f : S -> X).

Lemma preserves_ret {A} (a : A) : preserves f (ret a).
Proof. intros s. reflexivity. Qed.

Lemma preserves_raise {A} e : preserves f (@raise S A e).
Proof. intros s. reflexivity. Qed.

Lemma preserves_lift {A} (o : outcome A) : preserves f (lift o).
Proof. intros s. reflexivity. Qed.

Lemma preserves_modify (g : S -> S) :
  (forall s, f (g s) = f s) -> preserves f (modify g).
Proof. intros H s. apply H. Qed.

Lemma preserves_bind {A B} (c : M S A) (k : A -> M S B) :
  preserves f c -> (forall a, preserves f (k a)) -> preserves f (bind c k).
Proof.
  intros Hc Hk s. unfold bind. specialize (Hc s).
  destruct (c s) as [[a|e] s']; simpl in *.
  - rewrite Hk. exact Hc.
  - exact Hc.
Qed.

Lemma preserves_get_bind {B} (k : S -> M S B) :
  (forall s, preserves f (k s)) -> preserves f (bind get k).
Proof. intros Hk s. unfold bind, get. apply Hk. Qed.

Lemma preserves_for_each {A} (xs : list A) (body : A -> M S unit) :
  (forall x, preserves f (body x)) -> preserves f (for_each xs body).
Proof.
  intros Hb. induction xs as [|x xs IH]; simpl.
  - apply preserves_ret.
  - apply preserves_bind; [apply Hb|intros _; exact IH].
Qed.

End Preserves.

(** One step through the structure of a method. *)
Ltac preserves_step :=
  first
    [ apply preserves_ret | apply preserves_raise | apply preserves_lift
    | apply preserves_get_bind; intros ?
    | apply preserves_bind; [|intros ?]
    | apply preserves_for_each; intros ? ].

(** ** The waveform *)

Section PWM.
Import DisplayPinDataPWM.




(** A painted pixel holds the colour, any other pixel what it held. *)
Lemma paint_get pts c self x y :
  Bitmap_get (_cycle_wave_bitmap (paint pts c self)) x y
  = if bool_decide ((x, y) ∈ pts) then c
    else Bitmap_get (_cycle_wave_bitmap self) x y.
Proof.
  revert self. induction pts as [|pt pts IH]; intros self.
  - rewrite bool_decide_eq_false_2; [done|]. apply not_elem_of_nil.
  - change (paint (pt :: pts) c self)
      with (paint pts c (paint_pixel c self pt)).
    rewrite IH. destruct pt as [px py].
    destruct (decide ((x, y) ∈ pts)) as [Hin|Hnin].
    + rewrite !bool_decide_eq_true_2; [done| |done].
      apply elem_of_cons; by right.
    + rewrite (bool_decide_eq_false_2 _ Hnin).
      unfold Bitmap_get, paint_pixel. simpl.
      destruct (decide ((x, y) = (px, py))) as [Heq|Hne].
      * rewrite bool_decide_eq_true_2 by (rewrite Heq; apply elem_of_cons; by left).
        injection Heq as -> ->. by rewrite lookup_insert_eq.
      * rewrite bool_decide_eq_false_2.
        -- by rewrite lookup_insert_ne.
        -- intros [?|?]%elem_of_cons; congruence.
Qed.

(** A loop of pixel writes that all fall inside the bitmap returns, and
    paints them. *)
Lemma for_each_setitem (xs : list Z) (gx gy : Z -> Z) c self :
  (forall i, i ∈ xs ->
             Bitmap_in_bounds (_cycle_wave_bitmap self) (gx i) (gy i) = true) ->
  for_each xs (fun i => bmp_setitem (gx i) (gy i) c) self
  = (Ok tt, paint ((fun i => (gx i, gy i)) <$> xs) c self).
Proof.
  revert self. induction xs as [|i xs IH]; intros self Hin; [done|].
  simpl. erewrite bind_Ok.
  2:{ unfold bmp_setitem. rewrite Hin by (apply elem_of_cons; by left).
      reflexivity. }
  rewrite IH; [done|].
  intros j Hj. rewrite <- (Hin j) by (apply elem_of_cons; by right).
  reflexivity.
Qed.

Lemma in_bounds_iff b x y :
  Bitmap_in_bounds b x y = true
  <-> 0 <= x < bmp_width b /\ 0 <= y < bmp_height b.
Proof. unfold Bitmap_in_bounds. rewrite !andb_true_iff. lia. Qed.

Lemma elem_of_range i a b : i ∈ range a b <-> a <= i < b.
Proof. unfold range. rewrite elem_of_seqZ. lia. Qed.


End PWM.

Section PWMInvariants.
Import DisplayPinDataPWM.

Lemma bmp_setitem_geometry x y c : preserves pwm_geometry (bmp_setitem x y c).
Proof. intros s. unfold bmp_setitem. by destruct (Bitmap_in_bounds _ x y). Qed.

Lemma bmp_setitem_value x y c : preserves _value (bmp_setitem x y c).
Proof. intros s. unfold bmp_setitem. by destruct (Bitmap_in_bounds _ x y). Qed.

(** A redraw changes the cached edge, the pixels and the trace only. *)
Lemma redrawWave_preserves {X} (f : t -> X) value :
  (forall e s, f (set__cycle_scale_x_pos e s) = f s) ->
  (forall c, preserves f (bmp_fill c)) ->
  (forall x y c, preserves f (bmp_setitem x y c)) ->
  preserves f (_redrawWave value).
Proof.
  intros Hpos Hfill Hset. unfold _redrawWave.
  preserves_step. preserves_step; [preserves_step|].
  destruct (py_eqb _ _); [preserves_step|].
  preserves_step; [by apply preserves_modify|].
  preserves_step; [apply Hfill|].
  destruct (is_none value); [preserves_step|].
  destruct (_ || _).
  - preserves_step. apply Hset.
  - preserves_step; [preserves_step; apply Hset|].
    destruct (as_num _); [|preserves_step].
    preserves_step; [preserves_step; apply Hset|].
    preserves_step.
    + destruct (negb _); preserves_step. apply Hset.
    + preserves_step. apply Hset.
Qed.

Lemma redrawWave_geometry value : preserves pwm_geometry (_redrawWave value).
Proof.
  apply redrawWave_preserves; [done|by intros c s|apply bmp_setitem_geometry].
Qed.

Lemma redrawWave_value value : preserves _value (_redrawWave value).
Proof.
  apply redrawWave_preserves; [done|by intros c s|apply bmp_setitem_value].
Qed.

Lemma pwm_set_value_geometry value : preserves pwm_geometry (set_value value).
Proof.
  unfold set_value. preserves_step. preserves_step; [preserves_step|].
  destruct (negb _); [|preserves_step].
  preserves_step; [by apply preserves_modify|apply redrawWave_geometry].
Qed.


Lemma wave_fits_geometry s s' :
  pwm_geometry s' = pwm_geometry s -> wave_fits s -> wave_fits s'.
Proof. unfold pwm_geometry, wave_fits. intros [= ? ? -> -> -> ->]. done. Qed.


Lemma pwm_set_value_fits value self :
  wave_fits self -> wave_fits (snd (set_value value self)).
Proof. apply wave_fits_geometry, pwm_set_value_geometry. Qed.

End PWMInvariants.

Section PWMRedraw.
Import DisplayPinDataPWM.


Lemma redrawWave_flat_eval self value (high : bool) :
  wave_fits self ->
  0 < _cycle_wave_height self ->
  is_none value = false ->
  _waveXPos self value = Ok (PStr (if high then "high" else "low")) ->
  py_eqb (PStr (if high then "high" else "low")) (_cycle_scale_x_pos self)
  = false ->
  _redrawWave value self
  = (Ok tt,
     paint (flat_points (_cycle_wave_width self)
                        (if high then 0 else _cycle_wave_height self - 1))
           _LINE_COL_IDX
           (cleared_for (PStr (if high then "high" else "low")) self)).
Proof.
  intros [Hbw Hbh] Hh Hv Hx Hneq.
  unfold _redrawWave, cleared_for.
  erewrite bind_Ok by reflexivity.
  erewrite bind_Ok by (unfold lift; rewrite Hx; reflexivity).
  rewrite Hneq.
  erewrite bind_Ok by reflexivity.
  erewrite bind_Ok by reflexivity.
  rewrite Hv.
  assert (forall x y,
            0 <= x < _cycle_wave_width self ->
            0 <= y < _cycle_wave_height self ->
            Bitmap_in_bounds
              (Bitmap_fill 0 (_cycle_wave_bitmap self)) x y = true) as Hin.
  { intros x y Hxw Hyh. apply in_bounds_iff. simpl. lia. }
  destruct high; simpl orb; cbv iota zeta; simpl py_eqb; cbv iota.
  - apply (for_each_setitem _ (fun x => x) (fun _ => 0)).
    intros i Hi%elem_of_range. apply Hin; lia.
  - apply (for_each_setitem _ (fun x => x)
                            (fun _ => _cycle_wave_height self - 1)).
    intros i Hi%elem_of_range. apply Hin; lia.
Qed.

Lemma elem_of_flat_points w y0 x y :
  (x, y) ∈ flat_points w y0 <-> 0 <= x < w /\ y = y0.
Proof.
  unfold flat_points. rewrite list_elem_of_fmap.
  setoid_rewrite elem_of_range. split.
  - intros (i & [= -> ->] & ?). lia.
  - intros [? ->]. exists x. done.
Qed.


End PWMRedraw.

Section PWMClaims.
Import DisplayPinDataPWM.

(** C3: [_waveXPos] maps [None] to [None] (no edge) and 0 to ["low"]; it
    maps [value_range - 1] to ["high"] exactly when [value_range >= 65536].
    On a widget [cp] of range 65536 the value 65535 gives ["high"], and
    its redraw (on a bitmap of the widget's size, the cached edge being
    another one) returns with the top row set across the whole width and
    every other pixel clear; a value 0 gives the bottom row in the same
    way.  On a widget [mp] of range 1024 the value 1023 gives the
    general-case column. *)
Theorem waveXPos_sentinels (self cp mp : t) :
  _value_range cp = 65536 ->
  wave_fits cp ->
  0 < _cycle_wave_height cp ->
  _value_range mp = 1024 ->
  (_waveXPos self PNone = Ok PNone
   /\ _waveXPos self (PInt 0) = Ok (PStr "low")
   /\ (_waveXPos self (PInt (_value_range self - 1)) = Ok (PStr "high")
       <-> 65536 <= _value_range self))
  /\ _waveXPos cp (PInt 65535) = Ok (PStr "high")
  /\ (forall high : bool,
        py_eqb (PStr (if high then "high" else "low"))
               (_cycle_scale_x_pos cp) = false ->
        exists cp',
          _redrawWave (PInt (if high then 65535 else 0)) cp = (Ok tt, cp')
          /\ forall x y,
               0 <= x < _cycle_wave_width cp ->
               0 <= y < _cycle_wave_height cp ->
               Bitmap_get (_cycle_wave_bitmap cp') x y
               = if bool_decide
                      (y = if high then 0 else _cycle_wave_height cp - 1)
                 then 1 else 0)
  /\ _waveXPos mp (PInt 1023)
     = Ok (PInt (Z.quot ((_line_scfactor mp + 1) * 1023) 1024)).
Proof.
  intros Hcp Hfit Hh Hmp. repeat split.
  - unfold _waveXPos. simpl.
    destruct (Z.eqb_spec (_value_range self - 1) 0); [discriminate|].
    destruct (Z.leb_spec 65536 (_value_range self)); [done|]. simpl.
    unfold int_scaled. simpl. destruct (_ =? 0); discriminate.
  - intros Hr. unfold _waveXPos. simpl.
    destruct (Z.eqb_spec (_value_range self - 1) 0); [lia|].
    destruct (Z.leb_spec 65536 (_value_range self)); [|lia].
    by rewrite Z.eqb_refl.
  - unfold _waveXPos. rewrite Hcp. reflexivity.
  - intros high Hneq.
    assert (_waveXPos cp (PInt (if high then 65535 else 0))
            = Ok (PStr (if high then "high" else "low"))) as Hx.
    { unfold _waveXPos. rewrite Hcp. by destruct high. }
    rewrite (redrawWave_flat_eval cp (PInt (if high then 65535 else 0)) high
                                  Hfit Hh eq_refl Hx Hneq).
    eexists. split; [reflexivity|]. intros x y Hxw Hyh.
    rewrite paint_get. unfold cleared_for, Bitmap_get. simpl.
    rewrite lookup_empty. simpl.
    destruct (decide (y = if high then 0 else _cycle_wave_height cp - 1))
      as [Hy|Hy].
    + rewrite !bool_decide_eq_true_2; [done|done|].
      by apply elem_of_flat_points.
    + rewrite !bool_decide_eq_false_2; [done|done|].
      intros [_ ?]%elem_of_flat_points. done.
  - unfold _waveXPos, int_scaled. rewrite Hmp. reflexivity.
Qed.

Lemma waveXPos_sentinels_witness :
  _waveXPos (mk 99 65536 100 12 (Bitmap_new 100 12) PNone PNone [])
            (PInt 65535) = Ok (PStr "high")
  /\ _waveXPos (mk 99 1024 100 12 (Bitmap_new 100 12) PNone PNone [])
               (PInt 1023) = Ok (PInt 99).
Proof.
  destruct (waveXPos_sentinels
              (mk 99 65536 100 12 (Bitmap_new 100 12) PNone PNone [])
              (mk 99 65536 100 12 (Bitmap_new 100 12) PNone PNone [])
              (mk 99 1024 100 12 (Bitmap_new 100 12) PNone PNone []))
    as (_ & Hhigh & _ & Hmp);
    [reflexivity|split; reflexivity|simpl; lia|reflexivity|].
  split; [exact Hhigh|exact Hmp].
Defined.




End PWMClaims.

(** ** Assigning the same value twice *)

Section Twice.

Lemma analog_set_value_unfold value self :
  DisplayPinDataAnalog.set_value value self
  = match clamp (DisplayPinDataAnalog._value_range self) value with
    | Raise e => (Raise e, self)
    | Ok c =>
        let self1 := DisplayPinDataAnalog.set__value c self in
        if is_none c then (Ok tt, self1)
        else
          match int_scaled (DisplayPinDataAnalog._line_scfactor self + 1) c
                           (DisplayPinDataAnalog._value_range self) with
          | Raise e => (Raise e, self1)
          | Ok new_x =>
              if negb (DisplayPinDataAnalog.line_x self =? new_x)
              then (Ok tt, DisplayPinDataAnalog.set_line_x new_x self1)
              else (Ok tt, self1)
          end
    end.
Proof.
  unfold DisplayPinDataAnalog.set_value, DisplayPinDataAnalog._setLinePos,
    bind, get, lift, modify, ret.
  destruct (clamp _ value) as [c|]; [|reflexivity]. cbv zeta.
  destruct (is_none c); [reflexivity|].
  change (DisplayPinDataAnalog._line_scfactor
            (DisplayPinDataAnalog.set__value c self))
    with (DisplayPinDataAnalog._line_scfactor self).
  change (DisplayPinDataAnalog._value_range
            (DisplayPinDataAnalog.set__value c self))
    with (DisplayPinDataAnalog._value_range self).
  destruct (int_scaled _ c _) as [new_x|]; [|reflexivity].
  change (DisplayPinDataAnalog.line_x
            (DisplayPinDataAnalog.set__value c self))
    with (DisplayPinDataAnalog.line_x self).
  by destruct (negb _).
Qed.

Lemma analog_set_value_twice value self :
  snd (DisplayPinDataAnalog.set_value value
         (snd (DisplayPinDataAnalog.set_value value self)))
  = snd (DisplayPinDataAnalog.set_value value self).
Proof.
  rewrite (analog_set_value_unfold value self).
  destruct (clamp _ value) as [c|] eqn:Hc;
    [|by simpl; rewrite analog_set_value_unfold, Hc].
  cbv zeta.
  destruct (is_none c) eqn:Hn;
    [by simpl; rewrite analog_set_value_unfold; simpl; rewrite Hc, Hn|].
  destruct (int_scaled _ c _) as [new_x|] eqn:Hx;
    [|by simpl; rewrite analog_set_value_unfold; simpl; rewrite Hc, Hn, Hx].
  destruct (Z.eqb_spec (DisplayPinDataAnalog.line_x self) new_x)
    as [Heq|Hne]; simpl; rewrite analog_set_value_unfold; simpl;
    rewrite Hc, Hn, Hx.
  - rewrite Heq, Z.eqb_refl. reflexivity.
  - rewrite Z.eqb_refl. reflexivity.
Qed.

Lemma pwm_set_value_unfold value self :
  DisplayPinDataPWM.set_value value self
  = match clamp (DisplayPinDataPWM._value_range self) value with
    | Raise e => (Raise e, self)
    | Ok c =>
        if negb (py_eqb (DisplayPinDataPWM._value self) c)
        then DisplayPinDataPWM._redrawWave c
               (DisplayPinDataPWM.set__value c self)
        else (Ok tt, self)
    end.
Proof.
  unfold DisplayPinDataPWM.set_value, bind, get, lift, modify, ret.
  destruct (clamp _ value) as [c|]; [|reflexivity].
  destruct (negb _); [|reflexivity].
  by destruct (DisplayPinDataPWM._redrawWave c _) as [[[]|] ?].
Qed.

Lemma pwm_set_value_twice value self :
  snd (DisplayPinDataPWM.set_value value
         (snd (DisplayPinDataPWM.set_value value self)))
  = snd (DisplayPinDataPWM.set_value value self).
Proof.
  rewrite (pwm_set_value_unfold value self).
  destruct (clamp _ value) as [c|] eqn:Hc.
  - destruct (negb _) eqn:Hne.
    + pose proof (redrawWave_value c (DisplayPinDataPWM.set__value c self))
        as Hval.
      pose proof (redrawWave_geometry c (DisplayPinDataPWM.set__value c self))
        as [= _ Hr _ _ _ _].
      set (s1 := snd (DisplayPinDataPWM._redrawWave c _)) in *.
      simpl in Hval, Hr.
      rewrite pwm_set_value_unfold, Hr, Hc, Hval, py_eqb_refl. reflexivity.
    + simpl. rewrite pwm_set_value_unfold, Hc, Hne. reflexivity.
  - simpl. rewrite pwm_set_value_unfold, Hc. reflexivity.
Qed.

Lemma boolean_text_set_value_twice value self :
  snd (DisplayPinDataBooleanText.set_value value
         (snd (DisplayPinDataBooleanText.set_value value self)))
  = snd (DisplayPinDataBooleanText.set_value value self).
Proof.
  destruct self as [ft tt' val x tr].
  unfold DisplayPinDataBooleanText.set_value,
    DisplayPinDataBooleanText._setDigstate, bind, get, modify, ret. simpl.
  set (nv := if is_none value then PNone else PBool (py_bool value)).
  destruct (py_eqb val nv) eqn:He; simpl; [by rewrite He|].
  destruct (is_none nv); simpl; by rewrite py_eqb_refl.
Qed.

Lemma music_set_value_unfold value self :
  DisplayPinDataMusic.set_value value self
  = if negb (py_eqb (DisplayPinDataMusic._value self) value)
    then
      bind (if isinstance_str value then ret value
            else bind (lift (py_getitem value 1))
                      (fun v1 => if is_none v1
                                 then lift (py_getitem value 0)
                                 else ret v1))
           DisplayPinDataMusic._setNote
           (DisplayPinDataMusic.set__value value self)
    else (Ok tt, self).
Proof.
  unfold DisplayPinDataMusic.set_value. unfold bind at 1, get.
  destruct (negb _); [|reflexivity].
  unfold bind at 1, modify. reflexivity.
Qed.

Lemma music_setNote_value value :
  preserves DisplayPinDataMusic._value (DisplayPinDataMusic._setNote value).
Proof.
  unfold DisplayPinDataMusic._setNote.
  destruct value; try (by apply preserves_modify);
    (preserves_step; [preserves_step|by apply preserves_modify]).
Qed.

Lemma music_set_value_twice value self :
  snd (DisplayPinDataMusic.set_value value
         (snd (DisplayPinDataMusic.set_value value self)))
  = snd (DisplayPinDataMusic.set_value value self).
Proof.
  rewrite (music_set_value_unfold value self).
  destruct (negb _) eqn:Hne.
  - match goal with |- context [bind ?c ?k ?s] =>
      assert (preserves DisplayPinDataMusic._value (bind c k)) as Hp;
      [|specialize (Hp s); set (s1 := snd (bind c k s)) in *] end.
    { preserves_step; [|apply music_setNote_value].
      destruct (isinstance_str value); [preserves_step|].
      preserves_step; [preserves_step|].
      destruct (is_none _); preserves_step. }
    simpl in Hp. rewrite music_set_value_unfold, Hp, py_eqb_refl.
    reflexivity.
  - simpl. rewrite music_set_value_unfold, Hne. reflexivity.
Qed.

End Twice.

(** C7: for each of the four widgets and every value, assigning the value a
    second time right after the first assignment leaves the widget exactly
    as the first assignment left it: no write is added to its trace, and
    bitmap, position and text are unchanged. *)
Theorem set_value_twice_no_mutation (w : widget) (v : pyval) :
  snd (widget_set_value v (snd (widget_set_value v w)))
  = snd (widget_set_value v w)
  /\ widget_trace (snd (widget_set_value v (snd (widget_set_value v w))))
     = widget_trace (snd (widget_set_value v w)).
Proof.
  assert (snd (widget_set_value v (snd (widget_set_value v w)))
          = snd (widget_set_value v w)) as H; [|by rewrite H].
  destruct w as [a|p|b|m]; simpl.
  - pose proof (analog_set_value_twice v a) as H.
    destruct (DisplayPinDataAnalog.set_value v a) as [r1 a1]; simpl in *.
    destruct (DisplayPinDataAnalog.set_value v a1) as [r2 a2]; simpl in *.
    by rewrite H.
  - pose proof (pwm_set_value_twice v p) as H.
    destruct (DisplayPinDataPWM.set_value v p) as [r1 p1]; simpl in *.
    destruct (DisplayPinDataPWM.set_value v p1) as [r2 p2]; simpl in *.
    by rewrite H.
  - pose proof (boolean_text_set_value_twice v b) as H.
    destruct (DisplayPinDataBooleanText.set_value v b) as [r1 b1]; simpl in *.
    destruct (DisplayPinDataBooleanText.set_value v b1) as [r2 b2];
      simpl in *.
    by rewrite H.
  - pose proof (music_set_value_twice v m) as H.
    destruct (DisplayPinDataMusic.set_value v m) as [r1 m1]; simpl in *.
    destruct (DisplayPinDataMusic.set_value v m1) as [r2 m2]; simpl in *.
    by rewrite H.
Qed.

(** ** Clamping *)

Lemma analog_set_value_clamp v1 v2 self :
  clamp (DisplayPinDataAnalog._value_range self) v1
  = clamp (DisplayPinDataAnalog._value_range self) v2 ->
  DisplayPinDataAnalog.set_value v1 self
  = DisplayPinDataAnalog.set_value v2 self.
Proof. intros H. rewrite !analog_set_value_unfold. by rewrite H. Qed.

Lemma pwm_set_value_clamp v1 v2 self :
  clamp (DisplayPinDataPWM._value_range self) v1
  = clamp (DisplayPinDataPWM._value_range self) v2 ->
  DisplayPinDataPWM.set_value v1 self = DisplayPinDataPWM.set_value v2 self.
Proof. intros H. rewrite !pwm_set_value_unfold. by rewrite H. Qed.

(** C5: on a bar graph and on a waveform widget with a positive value
    range, assigning an integer below 0 gives the same outcome and leaves
    the same object (stored value, drawables, trace of writes) as assigning
    0, and assigning an integer at or above the range the same as assigning
    [value_range - 1]. *)
Theorem clamping_equivalence
    (a : DisplayPinDataAnalog.t) (p : DisplayPinDataPWM.t) (lo hi : Z) :
  0 < DisplayPinDataAnalog._value_range a ->
  0 < DisplayPinDataPWM._value_range p ->
  lo < 0 ->
  DisplayPinDataAnalog._value_range a <= hi ->
  DisplayPinDataPWM._value_range p <= hi ->
  (DisplayPinDataAnalog.set_value (PInt lo) a
   = DisplayPinDataAnalog.set_value (PInt 0) a
   /\ DisplayPinDataAnalog.set_value (PInt hi) a
      = DisplayPinDataAnalog.set_value
          (PInt (DisplayPinDataAnalog._value_range a - 1)) a)
  /\ (DisplayPinDataPWM.set_value (PInt lo) p
      = DisplayPinDataPWM.set_value (PInt 0) p
      /\ DisplayPinDataPWM.set_value (PInt hi) p
         = DisplayPinDataPWM.set_value
             (PInt (DisplayPinDataPWM._value_range p - 1)) p)
  /\ (DisplayPinDataAnalog._value
        (snd (DisplayPinDataAnalog.set_value (PInt lo) a)) = PInt 0
      /\ DisplayPinDataAnalog._value
           (snd (DisplayPinDataAnalog.set_value (PInt hi) a))
         = PInt (DisplayPinDataAnalog._value_range a - 1)).
Proof.
  intros Ha Hp Hlo Hhia Hhip. repeat split.
  - apply analog_set_value_clamp.
    rewrite clamp_below, clamp_inside; [done|lia|lia].
  - apply analog_set_value_clamp.
    rewrite clamp_above, clamp_inside; [done|lia|lia|lia].
  - apply pwm_set_value_clamp.
    rewrite clamp_below, clamp_inside; [done|lia|lia].
  - apply pwm_set_value_clamp.
    rewrite clamp_above, clamp_inside; [done|lia|lia|lia].
  - destruct (analog_set_value_num a (PInt lo) (PInt 0) 0) as (_ & Hv & _);
      [by apply clamp_below|done|lia|exact Hv].
  - destruct (analog_set_value_num a (PInt hi) _ _
                (clamp_above _ hi ltac:(lia) Hhia) eq_refl) as (_ & Hv & _);
      [lia|exact Hv].
Qed.

Lemma clamping_equivalence_witness :
  DisplayPinDataAnalog.set_value (PInt (-5))
    (DisplayPinDataAnalog.mk 98 65536 PNone 0 [])
  = DisplayPinDataAnalog.set_value (PInt 0)
      (DisplayPinDataAnalog.mk 98 65536 PNone 0 [])
  /\ DisplayPinDataPWM.set_value (PInt 65536)
       (DisplayPinDataPWM.mk 99 65536 100 12 (Bitmap_new 100 12)
                             PNone PNone [])
     = DisplayPinDataPWM.set_value (PInt (65536 - 1))
         (DisplayPinDataPWM.mk 99 65536 100 12 (Bitmap_new 100 12)
                               PNone PNone []).
Proof.
  destruct (clamping_equivalence
              (DisplayPinDataAnalog.mk 98 65536 PNone 0 [])
              (DisplayPinDataPWM.mk 99 65536 100 12 (Bitmap_new 100 12)
                                    PNone PNone [])
              (-5) 65536)
    as ((Ha & _) & (_ & Hp) & _);
    [simpl; lia|simpl; lia|lia|simpl; lia|simpl; lia|].
  split; [exact Ha|exact Hp].
Defined.

(** ** The "no value" state of the bar graph *)

(** C8, as the code has it: assigning [None] to a bar graph returns, stores
    [None] and writes to no drawable; the marker stays where it was. *)
Theorem analog_set_none (self : DisplayPinDataAnalog.t) :
  DisplayPinDataAnalog.set_value PNone self
  = (Ok tt, DisplayPinDataAnalog.set__value PNone self)
  /\ DisplayPinDataAnalog._value
       (snd (DisplayPinDataAnalog.set_value PNone self)) = PNone
  /\ DisplayPinDataAnalog.line_x
       (snd (DisplayPinDataAnalog.set_value PNone self))
     = DisplayPinDataAnalog.line_x self
  /\ DisplayPinDataAnalog.trace
       (snd (DisplayPinDataAnalog.set_value PNone self))
     = DisplayPinDataAnalog.trace self.
Proof. repeat split. Qed.

(** After a value has moved the marker to column 49, assigning [None]
    leaves it in column 49: the position is not cleared back to the one a
    widget without a value is built with. *)
Lemma analog_set_none_keeps_marker :
  match DisplayPinDataAnalog.init 100 PNone 65536 2 with
  | Ok w0 =>
      let w1 := snd (DisplayPinDataAnalog.set_value (PInt 32768) w0) in
      let w2 := snd (DisplayPinDataAnalog.set_value PNone w1) in
      DisplayPinDataAnalog._value w0 = PNone
      /\ DisplayPinDataAnalog.line_x w0 = 0
      /\ DisplayPinDataAnalog.line_x w1 = 49
      /\ DisplayPinDataAnalog._value w2 = PNone
      /\ DisplayPinDataAnalog.line_x w2 = 49
      /\ DisplayPinDataAnalog.line_x w2 <> DisplayPinDataAnalog.line_x w0
  | Raise _ => False
  end.
Proof. simpl. repeat split. discriminate. Qed.

(** ** The panel *)

(** C9: assigning any value to [DisplayPin.value] stores it as it is, so
    that the [value] property reads it back, also when the widget's setter
    raises; with no data widget nothing else happens, and with a data
    widget the same value goes to that widget's setter, whose outcome is
    the outcome of the assignment. *)
Theorem pin_value_stored_and_forwarded (self : DisplayPin.t) (v : pyval) :
  DisplayPin.value (snd (DisplayPin.set_value v self)) = v
  /\ match DisplayPin._data self with
     | None =>
         DisplayPin.set_value v self
         = (Ok tt, DisplayPin.set__user_value v self)
     | Some w =>
         DisplayPin.set_value v self
         = (fst (widget_set_value v w),
            DisplayPin.set__data (Some (snd (widget_set_value v w)))
                                 (DisplayPin.set__user_value v self))
     end.
Proof.
  unfold DisplayPin.set_value, DisplayPin.value, bind, get, modify, ret.
  simpl. destruct (DisplayPin._data self) as [w|]; [|done].
  by destruct (widget_set_value v w) as [r w'].
Qed.

(** C2, on the code: with units that are neither ["CP"] nor ["MP"] the
    constructor raises no configuration error.  For a mode without a
    graphical widget it returns a panel, whatever the name and the value;
    for an analog mode it stops on the unbound local [value_range]. *)
Theorem init_unknown_units_not_rejected :
  DisplayPin.units_value_range "XX" = None
  /\ (forall name value,
        DisplayPin.init (6, 14) name "unused" "XX" value 120 18 (6, 14)
        = Ok (DisplayPin.mk
                (str_upper (String.substring 0 DisplayPin._NAME_WIDTH name))
                "XX" "unused" value None))
  /\ DisplayPin.init (6, 14) "A0" "unused" "XX" PNone 120 18 (6, 14)
     = Ok (DisplayPin.mk "A0" "XX" "unused" PNone None)
  /\ DisplayPin.init (6, 14) "A0" "read_digital" "XX" PNone 120 18 (6, 14)
     = Ok (DisplayPin.mk "A0" "XX" "read_digital" PNone
             (Some (WBooleanText
                      (DisplayPinDataBooleanText.mk "low" "HIGH" PNone "" []))))
  /\ (forall name value,
        DisplayPin.init (6, 14) name "read_analog" "XX" value 120 18 (6, 14)
        = Raise UnboundLocalError).
Proof. repeat split. Qed.

(** C1, on the code: assigning a bare frequency to a note widget that holds
    no value raises [TypeError] at [value[1]], after the value has been
    stored and before any text is written, and so does the constructor
    given a bare frequency; the tuple form of the same frequency is
    rendered as ["262Hz"]. *)
Theorem music_bare_number_raises :
  DisplayPinDataMusic.init 18 PNone (6, 14)
  = Ok (DisplayPinDataMusic.mk PNone "" [])
  /\ (forall z text trace,
        DisplayPinDataMusic.set_value (PInt z)
          (DisplayPinDataMusic.mk PNone text trace)
        = (Raise TypeError, DisplayPinDataMusic.mk (PInt z) text trace))
  /\ DisplayPinDataMusic.set_value (PInt 262)
       (DisplayPinDataMusic.mk PNone "" [])
     = (Raise TypeError, DisplayPinDataMusic.mk (PInt 262) "" [])
  /\ (forall z, DisplayPinDataMusic.init 18 (PInt z) (6, 14) = Raise TypeError)
  /\ DisplayPinDataMusic.set_value (PTuple [PInt 262; PNone])
       (DisplayPinDataMusic.mk PNone "" [])
     = (Ok tt, DisplayPinDataMusic.mk (PTuple [PInt 262; PNone]) "262Hz"
                                      [MSetText "262Hz"]).
Proof. repeat split. Qed.

(** * Further properties of the code *)

(** ** More on the clamp and the scaling *)

Lemma clamp_none r : clamp r PNone = Ok PNone.
Proof. reflexivity. Qed.

Lemma clamp_not_number r v :
  is_none v = false -> as_num v = None -> clamp r v = Raise TypeError.
Proof. intros Hn Hv. unfold clamp, py_lt. by rewrite Hn, Hv. Qed.

(** A number clamps to a number, whatever the range. *)
Lemma clamp_number r v z :
  as_num v = Some z -> exists c n, clamp r v = Ok c /\ as_num c = Some n.
Proof.
  intros Hv. unfold clamp, py_lt, py_ge.
  assert (is_none v = false) as -> by (by destruct v).
  rewrite Hv. destruct (z <? 0); [by exists (PInt 0), 0|].
  destruct (r <=? z); [by exists (PInt (r - 1)), (r - 1)|by exists v, z].
Qed.




(** ** Further properties of the bar graph *)

Section AnalogMore.
Import DisplayPinDataAnalog.

(** What an assignment of a number does, in one step. *)
Lemma analog_set_value_eval self value c n :
  clamp (_value_range self) value = Ok c ->
  as_num c = Some n ->
  _value_range self <> 0 ->
  set_value value self
  = (Ok tt,
     let new_x := Z.quot ((_line_scfactor self + 1) * n) (_value_range self) in
     if line_x self =? new_x then set__value c self
     else set_line_x new_x (set__value c self)).
Proof.
  intros Hc Hn Hr. rewrite analog_set_value_unfold, Hc. cbv zeta.
  assert (is_none c = false) as -> by (by destruct c).
  unfold int_scaled. rewrite Hn.
  destruct (Z.eqb_spec (_value_range self) 0); [done|].
  by destruct (_ =? _).
Qed.


(** X1: a string or a tuple assigned to a bar graph or to a waveform widget
    raises [TypeError] at the first comparison, and the widget is left
    exactly as it was. *)
Theorem graphical_non_number_raises
    (a : t) (p : DisplayPinDataPWM.t) (v : pyval) :
  is_none v = false ->
  as_num v = None ->
  set_value v a = (Raise TypeError, a)
  /\ DisplayPinDataPWM.set_value v p = (Raise TypeError, p).
Proof.
  intros Hn Hv. rewrite analog_set_value_unfold, pwm_set_value_unfold.
  by rewrite !clamp_not_number.
Qed.

Lemma graphical_non_number_raises_witness :
  set_value (PStr "high") (mk 98 65536 PNone 0 [])
  = (Raise TypeError, mk 98 65536 PNone 0 []).
Proof.
  apply (graphical_non_number_raises
           (mk 98 65536 PNone 0 [])
           (DisplayPinDataPWM.mk 99 65536 100 12 (Bitmap_new 100 12)
                                 PNone PNone [])
           (PStr "high")); reflexivity.
Defined.

(** X2: on a bar graph with a non-zero range, assigning a number returns
    and writes the marker position at most once, and only when the marker
    moves: the trace grows by the new position if it differs from the old
    one and by nothing otherwise. *)
Theorem analog_writes_only_on_move (self : t) (value : pyval) (z : Z) :
  _value_range self <> 0 ->
  as_num value = Some z ->
  fst (set_value value self) = Ok tt
  /\ trace (snd (set_value value self))
     = trace self
         ++ (if bool_decide (position_after self value = line_x self)
             then [] else [MSetX (position_after self value)]).
Proof.
  intros Hr Hz.
  destruct (clamp_number (_value_range self) value z Hz) as (c & n & Hc & Hn).
  unfold position_after.
  rewrite (analog_set_value_eval self value c n Hc Hn Hr). cbv zeta.
  split; [done|].
  destruct (Z.eqb_spec (line_x self)
              (Z.quot ((_line_scfactor self + 1) * n) (_value_range self)))
    as [Heq|Hne]; simpl.
  - rewrite bool_decide_eq_true_2 by done. by rewrite app_nil_r.
  - by rewrite bool_decide_eq_false_2 by done.
Qed.

Lemma analog_writes_only_on_move_witness :
  trace (snd (set_value (PInt 100) (mk 98 65536 PNone 0 [MSetX 0])))
  = [MSetX 0].
Proof.
  destruct (analog_writes_only_on_move
              (mk 98 65536 PNone 0 [MSetX 0]) (PInt 100) 100)
    as [_ H]; [simpl; lia|reflexivity|].
  rewrite H. reflexivity.
Defined.





End AnalogMore.

(** ** Further properties of the waveform *)

Section PWMMore.
Import DisplayPinDataPWM.



(** A redraw for the edge that is cached already does nothing. *)
Lemma redrawWave_same_eval self value e :
  _waveXPos self value = Ok e ->
  py_eqb e (_cycle_scale_x_pos self) = true ->
  _redrawWave value self = (Ok tt, self).
Proof.
  intros Hx He. unfold _redrawWave.
  erewrite bind_Ok by reflexivity.
  erewrite bind_Ok by (unfold lift; rewrite Hx; reflexivity).
  by rewrite He.
Qed.

(** A redraw for [None] clears the bitmap. *)
Lemma redrawWave_none_eval self :
  py_eqb PNone (_cycle_scale_x_pos self) = false ->
  _redrawWave PNone self = (Ok tt, cleared_for PNone self).
Proof.
  intros He. unfold _redrawWave.
  erewrite bind_Ok by reflexivity.
  erewrite bind_Ok by reflexivity.
  rewrite He. reflexivity.
Qed.








Lemma pwm_set_value_same_edge self v c e :
  clamp (_value_range self) v = Ok c ->
  _waveXPos self c = Ok e ->
  py_eqb e (_cycle_scale_x_pos self) = true ->
  set_value v self
  = (Ok tt, if py_eqb (_value self) c then self else set__value c self).
Proof.
  intros Hc Hx He.
  rewrite pwm_set_value_unfold, Hc. destruct (py_eqb (_value self) c);
    [done|]. simpl negb. cbv iota.
  by apply (redrawWave_same_eval (set__value c self) c e).
Qed.

(** X7: when the value assigned maps to the edge that is cached already
    (another value of the same column, say), the setter returns and stores
    the clamped value unless an equal one is stored, and nothing is drawn:
    bitmap, cached edge and trace of writes are as they were. *)
Theorem pwm_redraw_skipped (self : t) (v c e : pyval) :
  clamp (_value_range self) v = Ok c ->
  _waveXPos self c = Ok e ->
  py_eqb e (_cycle_scale_x_pos self) = true ->
  set_value v self
  = (Ok tt, if py_eqb (_value self) c then self else set__value c self)
  /\ _cycle_wave_bitmap (snd (set_value v self)) = _cycle_wave_bitmap self
  /\ _cycle_scale_x_pos (snd (set_value v self)) = _cycle_scale_x_pos self
  /\ trace (snd (set_value v self)) = trace self.
Proof.
  intros Hc Hx He.
  rewrite (pwm_set_value_same_edge self v c e Hc Hx He).
  split; [done|]. by destruct (py_eqb (_value self) c).
Qed.

Lemma pwm_redraw_skipped_witness :
  set_value (PInt 32800)
            (mk 99 65536 100 12 (Bitmap_new 100 12) (PInt 50) (PInt 32768) [])
  = (Ok tt,
     mk 99 65536 100 12 (Bitmap_new 100 12) (PInt 50) (PInt 32800) []).
Proof.
  destruct (pwm_redraw_skipped
              (mk 99 65536 100 12 (Bitmap_new 100 12) (PInt 50)
                  (PInt 32768) [])
              (PInt 32800) (PInt 32800) (PInt 50))
    as [H _]; [reflexivity|reflexivity|reflexivity|exact H].
Defined.



(** X9: assigning [None] to a waveform widget that holds a value and has
    an edge cached returns, forgets the edge and clears the whole bitmap
    with one fill: every pixel reads 0 afterwards. *)
Theorem pwm_none_clears (self : t) :
  py_eqb (_value self) PNone = false ->
  py_eqb PNone (_cycle_scale_x_pos self) = false ->
  set_value PNone self = (Ok tt, cleared_for PNone (set__value PNone self))
  /\ _value (snd (set_value PNone self)) = PNone
  /\ _cycle_scale_x_pos (snd (set_value PNone self)) = PNone
  /\ trace (snd (set_value PNone self)) = trace self ++ [MFill 0]
  /\ forall x y,
       Bitmap_get (_cycle_wave_bitmap (snd (set_value PNone self))) x y = 0.
Proof.
  intros Hval Hpos.
  assert (set_value PNone self
          = (Ok tt, cleared_for PNone (set__value PNone self))) as ->.
  { rewrite pwm_set_value_unfold, clamp_none, Hval. simpl negb. cbv iota.
    by apply redrawWave_none_eval. }
  repeat split.
Qed.

Lemma pwm_none_clears_witness :
  trace (snd (set_value PNone
                (mk 99 65536 100 12 (Bitmap_set 3 0 1 (Bitmap_new 100 12))
                    (PInt 50) (PInt 32768) [])))
  = [MFill 0].
Proof.
  destruct (pwm_none_clears
              (mk 99 65536 100 12 (Bitmap_set 3 0 1 (Bitmap_new 100 12))
                  (PInt 50) (PInt 32768) []))
    as (_ & _ & _ & H & _); [reflexivity|reflexivity|exact H].
Defined.



End PWMMore.

(** ** The static scale of the waveform widget *)

Section Scale.
Import DisplayPinDataPWM_scale.

Lemma bitmap_paint_size pts c b :
  bmp_width (bitmap_paint pts c b) = bmp_width b
  /\ bmp_height (bitmap_paint pts c b) = bmp_height b
  /\ bmp_fill_value (bitmap_paint pts c b) = bmp_fill_value b.
Proof.
  revert b. induction pts as [|pt pts IH]; intros b; [done|].
  change (bitmap_paint (pt :: pts) c b)
    with (bitmap_paint pts c (Bitmap_set pt.1 pt.2 c b)).
  destruct (IH (Bitmap_set pt.1 pt.2 c b)) as (-> & -> & ->). done.
Qed.

Lemma bitmap_paint_app pts1 pts2 c b :
  bitmap_paint (pts1 ++ pts2) c b = bitmap_paint pts2 c (bitmap_paint pts1 c b).
Proof. unfold bitmap_paint. apply foldl_app. Qed.

Lemma bitmap_paint_get pts c b x y :
  Bitmap_get (bitmap_paint pts c b) x y
  = if bool_decide ((x, y) ∈ pts) then c else Bitmap_get b x y.
Proof.
  revert b. induction pts as [|[px py] pts IH]; intros b.
  - rewrite bool_decide_eq_false_2; [done|]. apply not_elem_of_nil.
  - change (bitmap_paint ((px, py) :: pts) c b)
      with (bitmap_paint pts c (Bitmap_set px py c b)).
    rewrite IH.
    destruct (decide ((x, y) ∈ pts)) as [Hin|Hnin].
    + rewrite !bool_decide_eq_true_2; [done| |done].
      apply elem_of_cons; by right.
    + rewrite (bool_decide_eq_false_2 _ Hnin).
      unfold Bitmap_get, Bitmap_set. simpl.
      destruct (decide ((x, y) = (px, py))) as [Heq|Hne].
      * rewrite bool_decide_eq_true_2 by (apply elem_of_cons; by left).
        injection Heq as -> ->. by rewrite lookup_insert_eq.
      * rewrite bool_decide_eq_false_2.
        -- by rewrite lookup_insert_ne.
        -- intros [?|?]%elem_of_cons; congruence.
Qed.

(** A loop whose every round paints some pixels, on a bitmap of a given
    size, paints them all in turn. *)
Lemma for_each_paints {A} (xs : list A) (body : A -> M Bitmap unit)
      (pts : A -> list (Z * Z)) c w h b :
  bmp_width b = w -> bmp_height b = h ->
  (forall i b', i ∈ xs -> bmp_width b' = w -> bmp_height b' = h ->
                body i b' = (Ok tt, bitmap_paint (pts i) c b')) ->
  for_each xs body b = (Ok tt, bitmap_paint (xs ≫= pts) c b).
Proof.
  revert b. induction xs as [|i xs IH]; intros b Hw Hh Hbody; [done|].
  simpl. rewrite (bind_Ok _ _ _ _ _ (Hbody i b ltac:(by left) Hw Hh)).
  destruct (bitmap_paint_size (pts i) c b) as (Hw' & Hh' & _).
  rewrite IH; [by rewrite bitmap_paint_app|congruence|congruence|].
  intros j b' Hj. apply Hbody. by right.
Qed.

(** A loop stops at the first round that raises. *)
Lemma for_each_raises {S A} (xs1 xs2 : list A) (x : A)
      (body : A -> M S unit) s s1 s2 e :
  for_each xs1 body s = (Ok tt, s1) ->
  body x s1 = (Raise e, s2) ->
  for_each (xs1 ++ x :: xs2) body s = (Raise e, s2).
Proof.
  revert s. induction xs1 as [|i xs1 IH]; intros s Hpre Hx; simpl in *.
  - injection Hpre as ->. by rewrite (bind_Raise _ _ _ _ _ Hx).
  - unfold bind in *. destruct (body i s) as [[[]|e'] s']; [|done].
    by apply IH.
Qed.

Lemma range_split a m b :
  a <= m < b -> range a b = range a m ++ m :: range (m + 1) b.
Proof.
  intros H. unfold range.
  replace (b - a) with ((m - a) + (1 + (b - (m + 1)))) by lia.
  rewrite seqZ_app by lia. f_equal.
  replace (a + (m - a)) with m by lia.
  rewrite seqZ_cons by lia. f_equal. f_equal; lia.
Qed.

(** The pixels of one tick that starts in column [x_pos]. *)
Lemma tick_paints x_pos tick_width height c w b :
  bmp_width b = w -> bmp_height b = height ->
  0 <= x_pos -> x_pos + tick_width <= w ->
  for_each (range 0 tick_width)
    (fun t_off_x =>
       for_each (range 0 height)
         (fun t_row => bitmap_setitem (x_pos + t_off_x) t_row c)) b
  = (Ok tt,
     bitmap_paint
       (range 0 tick_width ≫=
          (fun t_off_x =>
             range 0 height ≫= (fun t_row => [(x_pos + t_off_x, t_row)])))
       c b).
Proof.
  intros Hw Hh Hx Hxw.
  apply (for_each_paints _ _ _ c w height); [done|done|].
  intros off b1 Hoff%elem_of_range Hw1 Hh1.
  apply (for_each_paints _ _ _ c w height); [done|done|].
  intros row b2 Hrow%elem_of_range Hw2 Hh2.
  unfold bitmap_setitem.
  assert (Bitmap_in_bounds b2 (x_pos + off) row = true) as ->; [|done].
  apply in_bounds_iff. lia.
Qed.

Lemma quarter_in_track s k :
  0 <= s -> 0 <= k < 5 -> 0 <= Z.quot (k * s) 4 <= s.
Proof.
  intros Hs Hk. rewrite Z.quot_div_nonneg by nia.
  split; [apply Z.div_pos; nia|].
  apply Z.lt_succ_r, Z.div_lt_upper_bound; nia.
Qed.

(** X11: with ticks between 1 and [width] columns wide, [_makeScale]
    returns a bitmap of the size asked for in which exactly the columns of
    the five ticks hold the scale colour, over the full height; the first
    tick starts in column 0 and the last one ends in the last column. *)
Theorem makeScale_ticks (tick_width width height col_idx : Z) :
  1 <= tick_width <= width ->
  exists b,
    _makeScale (width - tick_width) tick_width width height col_idx = Ok b
    /\ bmp_width b = width /\ bmp_height b = height
    /\ (forall x y,
          0 <= x < width -> 0 <= y < height ->
          (on_tick (width - tick_width) tick_width x ->
           Bitmap_get b x y = col_idx)
          /\ (~ on_tick (width - tick_width) tick_width x ->
              Bitmap_get b x y = 0))
    /\ on_tick (width - tick_width) tick_width 0
    /\ on_tick (width - tick_width) tick_width (width - 1).
Proof.
  intros Htw. unfold _makeScale. cbv zeta.
  set (s := width - tick_width).
  erewrite (for_each_paints _ _
              (fun k => range 0 tick_width ≫=
                 (fun off => range 0 height ≫=
                    (fun row => [(Z.quot (k * s) (5 - 1) + off, row)])))
              col_idx width height); [|done|done|].
  2:{ intros k b' Hk%elem_of_range Hw Hh.
      pose proof (quarter_in_track s k ltac:(lia) Hk) as Hq.
      change (5 - 1) with 4.
      apply (tick_paints _ _ _ _ width); [done|done|lia|lia]. }
  eexists. split; [reflexivity|].
  destruct (bitmap_paint_size
              (range 0 5 ≫=
                 (fun k => range 0 tick_width ≫=
                    (fun off => range 0 height ≫=
                       (fun row => [(Z.quot (k * s) (5 - 1) + off, row)]))))
              col_idx (Bitmap_new width height)) as (-> & -> & _).
  split; [done|]. split; [done|].
  assert (forall x y, 0 <= y < height ->
            (x, y) ∈ range 0 5 ≫=
              (fun k => range 0 tick_width ≫=
                 (fun off => range 0 height ≫=
                    (fun row => [(Z.quot (k * s) (5 - 1) + off, row)])))
            <-> on_tick s tick_width x) as Hmem.
  { intros x y Hy. unfold on_tick. change (5 - 1) with 4.
    rewrite list_elem_of_bind. split.
    - intros (k & Hin & Hk%elem_of_range). exists k. split; [done|].
      apply list_elem_of_bind in Hin as (off & Hin & Hoff%elem_of_range).
      apply list_elem_of_bind in Hin as (row & Hin & Hrow%elem_of_range).
      apply list_elem_of_singleton in Hin as [= -> ->]. lia.
    - intros (k & Hk & Hx). exists k. split; [|by apply elem_of_range].
      apply list_elem_of_bind. exists (x - Z.quot (k * s) 4).
      split; [|apply elem_of_range; lia].
      apply list_elem_of_bind. exists y. split; [|by apply elem_of_range].
      apply list_elem_of_singleton. f_equal. lia. }
  split; [|split].
  - intros x y Hx Hy. rewrite bitmap_paint_get. split; intros Hon.
    + rewrite bool_decide_eq_true_2; [done|]. by apply Hmem.
    + rewrite bool_decide_eq_false_2; [|by rewrite Hmem].
      unfold Bitmap_get. simpl. by rewrite lookup_empty.
  - exists 0. split; [lia|]. rewrite Z.mul_0_l, Z.quot_0_l by lia. lia.
  - exists 4. split; [lia|].
    replace (4 * s) with (s * 4) by lia. rewrite Z.quot_mul by lia.
    unfold s. lia.
Qed.

Lemma makeScale_ticks_witness :
  exists b, init_scale 100 1 = Ok b
            /\ Bitmap_get b 0 1 = 2 /\ Bitmap_get b 49 1 = 2
            /\ Bitmap_get b 50 1 = 0 /\ Bitmap_get b 99 1 = 2.
Proof.
  destruct (makeScale_ticks 1 100 3 _SCALE_COL_IDX)
    as (b & Hb & _ & _ & Hpx & _); [lia|].
  exists b. split; [exact Hb|].
  assert (forall x, on_tick (100 - 1) 1 x
                    <-> x = 0 \/ x = 24 \/ x = 49 \/ x = 74 \/ x = 99) as Ht.
  { intros x. unfold on_tick. split.
    - intros (k & Hk & Hx).
      assert (k = 0 \/ k = 1 \/ k = 2 \/ k = 3 \/ k = 4)
        as [->|[->|[->|[->| ->]]]] by lia;
        match type of Hx with context [Z.quot ?a ?b] =>
          let q := eval vm_compute in (Z.quot a b) in
          change (Z.quot a b) with q in Hx end; lia.
    - intros [->|[->|[->|[->| ->]]]];
        [exists 0|exists 1|exists 2|exists 3|exists 4];
        match goal with |- context [Z.quot ?a ?b] =>
          let q := eval vm_compute in (Z.quot a b) in
          change (Z.quot a b) with q end; lia. }
  repeat split.
  - apply (Hpx 0 1); [lia|lia|]. apply Ht. lia.
  - apply (Hpx 49 1); [lia|lia|]. apply Ht. lia.
  - apply (Hpx 50 1); [lia|lia|]. rewrite Ht. lia.
  - apply (Hpx 99 1); [lia|lia|]. apply Ht. lia.
Defined.

(** X12: with a tick wider than a bitmap that has at least one column and
    one row, [_makeScale] raises [IndexError] while it draws the first
    tick, which runs over the right edge. *)
Theorem makeScale_tick_too_wide
    (scale_scfactor tick_width width height col_idx : Z) :
  0 < width ->
  width < tick_width ->
  0 < height ->
  _makeScale scale_scfactor tick_width width height col_idx
  = Raise IndexError.
Proof.
  intros Hwpos Hw Hh. unfold _makeScale. cbv zeta.
  set (m := Z.max 0 width).
  set (inner := fun x_pos t_off_x =>
                  for_each (range 0 height)
                    (fun t_row => bitmap_setitem (x_pos + t_off_x) t_row
                                                 col_idx)).
  assert (forall b, bmp_width b = width -> bmp_height b = height ->
                    inner 0 m b = (Raise IndexError, b)) as Hfail.
  { intros b Hbw Hbh. unfold inner.
    rewrite (range_split 0 0 height) by lia.
    apply (for_each_raises [] _ 0 _ b b b); [done|].
    unfold bitmap_setitem.
    assert (Bitmap_in_bounds b (0 + m) 0 = false) as ->; [|done].
    apply not_true_iff_false. rewrite in_bounds_iff. lia. }
  assert (for_each (range 0 m) (inner 0) (Bitmap_new width height)
          = (Ok tt,
             bitmap_paint
               (range 0 m ≫=
                  (fun off => range 0 height ≫=
                     (fun row => [(0 + off, row)])))
               col_idx (Bitmap_new width height))) as Hpre.
  { destruct (Z.le_gt_cases width 0).
    - replace m with 0 by lia. reflexivity.
    - apply (tick_paints 0 m height col_idx width); [done|done|lia|lia]. }
  assert (for_each (range 0 tick_width) (inner 0) (Bitmap_new width height)
          = (Raise IndexError,
             bitmap_paint
               (range 0 m ≫=
                  (fun off => range 0 height ≫=
                     (fun row => [(0 + off, row)])))
               col_idx (Bitmap_new width height))) as Htick.
  { rewrite (range_split 0 m tick_width) by lia.
    apply (for_each_raises _ _ _ _ _ _ _ _ Hpre).
    destruct (bitmap_paint_size
                (range 0 m ≫= (fun off => range 0 height ≫=
                                 (fun row => [(0 + off, row)])))
                col_idx (Bitmap_new width height)) as (Hbw & Hbh & _).
    by apply Hfail. }
  rewrite (range_split 0 0 5) by lia.
  erewrite (for_each_raises [] _ 0); [reflexivity|reflexivity|].
  cbv beta. change (Z.quot (0 * scale_scfactor) (5 - 1)) with 0.
  exact Htick.
Qed.

Lemma makeScale_tick_too_wide_witness :
  init_scale 2 3 = Raise IndexError.
Proof.
  apply (makeScale_tick_too_wide (2 - 3) 3 2 3 _SCALE_COL_IDX); lia.
Defined.

End Scale.

(** ** The text widgets *)

Section TextWidgets.

(** One assignment to a boolean text widget whose label shows its value. *)
Lemma boolean_text_set_value_step b v :
  bool_text_inv b ->
  exists b',
    DisplayPinDataBooleanText.set_value v b = (Ok tt, b')
    /\ DisplayPinDataBooleanText._FALSE_TEXT b'
       = DisplayPinDataBooleanText._FALSE_TEXT b
    /\ DisplayPinDataBooleanText._TRUE_TEXT b'
       = DisplayPinDataBooleanText._TRUE_TEXT b
    /\ DisplayPinDataBooleanText._value b'
       = (if is_none v then PNone else PBool (py_bool v))
    /\ DisplayPinDataBooleanText.text b' = shown_text b v
    /\ bool_text_inv b'.
Proof.
  destruct b as [ft tt' val txt tr]. unfold bool_text_inv, shown_text.
  simpl. intros [Hval ->].
  unfold DisplayPinDataBooleanText.set_value,
    DisplayPinDataBooleanText._setDigstate, bind, get, modify, ret. simpl.
  destruct Hval as [->|[x ->]]; destruct (is_none v) eqn:Hv; simpl.
  - eexists. repeat split; eauto.
  - destruct (py_bool v); eexists; repeat split; simpl; eauto.
  - destruct x; eexists; repeat split; simpl; eauto.
  - destruct x, (py_bool v); simpl; eexists; repeat split; simpl; eauto.
Qed.

(** X13: a boolean text widget built without a value accepts every value
    of every type without raising, and after any sequence of assignments
    its label shows the last value assigned: the empty text for [None],
    the true text for a truthy value and the false text for a falsy one,
    while the stored value is [None] or the value coerced to a boolean. *)
Theorem boolean_text_shows_last_value
    (false_text true_text : string) (height : Z) (font_bb : Z * Z)
    (b0 : DisplayPinDataBooleanText.t) (vs : list pyval) (v : pyval) :
  DisplayPinDataBooleanText.init false_text true_text height PNone font_bb
  = Ok b0 ->
  fst (for_each (vs ++ [v]) DisplayPinDataBooleanText.set_value b0) = Ok tt
  /\ DisplayPinDataBooleanText.text
       (snd (for_each (vs ++ [v]) DisplayPinDataBooleanText.set_value b0))
     = (if is_none v then ""
        else if py_bool v then true_text else false_text)
  /\ DisplayPinDataBooleanText._value
       (snd (for_each (vs ++ [v]) DisplayPinDataBooleanText.set_value b0))
     = (if is_none v then PNone else PBool (py_bool v)).
Proof.
  unfold DisplayPinDataBooleanText.init.
  destruct (floordiv _ _); [|discriminate]. intros [= <-].
  set (Inv := fun b => bool_text_inv b
                /\ DisplayPinDataBooleanText._FALSE_TEXT b = false_text
                /\ DisplayPinDataBooleanText._TRUE_TEXT b = true_text).
  assert (Inv (DisplayPinDataBooleanText.mk false_text true_text PNone "" []))
    as H0 by (unfold Inv, bool_text_inv; simpl; eauto).
  revert H0.
  generalize (DisplayPinDataBooleanText.mk false_text true_text PNone "" []).
  induction vs as [|u vs IH]; intros b (Hinv & Hft & Htt).
  - destruct (boolean_text_set_value_step b v Hinv)
      as (b' & Hrun & _ & _ & Hval & Htxt & _).
    simpl. rewrite (bind_Ok _ _ _ _ _ Hrun). simpl.
    rewrite Htxt, Hval. unfold shown_text. by rewrite Hft, Htt.
  - destruct (boolean_text_set_value_step b u Hinv)
      as (b' & Hrun & Hft' & Htt' & _ & _ & Hinv').
    simpl. rewrite (bind_Ok _ _ _ _ _ Hrun).
    apply IH. unfold Inv. repeat split; [apply Hinv'|apply Hinv'| |];
      congruence.
Qed.

Lemma boolean_text_shows_last_value_witness :
  DisplayPinDataBooleanText.text
    (snd (for_each ([PInt 0; PStr "x"] ++ [PInt 7])
                   DisplayPinDataBooleanText.set_value
                   (DisplayPinDataBooleanText.mk "low" "HIGH" PNone "" [])))
  = "HIGH".
Proof.
  destruct (boolean_text_shows_last_value "low" "HIGH" 18 (6, 14)
              (DisplayPinDataBooleanText.mk "low" "HIGH" PNone "" [])
              [PInt 0; PStr "x"] (PInt 7))
    as (_ & H & _); [reflexivity|exact H].
Defined.

(** The first segment holds no colon, and the string is that segment
    alone or that segment, a colon and a rest. *)
Lemma split_colon_first_no_colon s : has_colon (split_colon_first s) = false.
Proof.
  induction s as [|c s IH]; [done|]. simpl.
  destruct (Ascii.eqb c ":") eqn:Hc; [done|]. simpl. by rewrite Hc.
Qed.

Lemma split_colon_first_prefix s :
  (has_colon s = false /\ split_colon_first s = s)
  \/ (has_colon s = true
      /\ exists rest, s = split_colon_first s +:+ ":" +:+ rest).
Proof.
  induction s as [|c s IH]; [by left|]. simpl.
  destruct (Ascii.eqb_spec c ":") as [->|Hc]; simpl.
  - right. split; [done|]. by exists s.
  - destruct IH as [[-> ->]|[-> [rest Hrest]]]; [by left|].
    right. split; [done|]. exists rest. by rewrite Hrest at 1.
Qed.

Lemma music_set_value_new m v :
  py_eqb (DisplayPinDataMusic._value m) v = false ->
  DisplayPinDataMusic.set_value v m
  = bind (if isinstance_str v then ret v
          else bind (lift (py_getitem v 1))
                    (fun v1 => if is_none v1 then lift (py_getitem v 0)
                               else ret v1))
         DisplayPinDataMusic._setNote
         (DisplayPinDataMusic.set__value v m).
Proof. intros H. by rewrite music_set_value_unfold, H. Qed.

(** X14: a note widget given a string it does not hold already, or a tuple
    whose second item is a string (whatever the first item is and whether
    or not more items follow), returns and shows that string up to its
    first colon: the text holds no colon, and the string is the text alone
    or the text, a colon and a rest.  The label is made for 7 glyphs; what
    it does with a longer text is outside the model, so the text is taken
    to fit. *)
Theorem music_shows_name
    (m : DisplayPinDataMusic.t) (v : pyval) (s : string) :
  py_eqb (DisplayPinDataMusic._value m) v = false ->
  (v = PStr s \/ exists l, v = PTuple l /\ l !! 1%nat = Some (PStr s)) ->
  (String.length (split_colon_first s) <= 7)%nat ->
  DisplayPinDataMusic.set_value v m
  = (Ok tt,
     DisplayPinDataMusic.set_text (split_colon_first s)
       (DisplayPinDataMusic.set__value v m))
  /\ has_colon (DisplayPinDataMusic.text
                  (snd (DisplayPinDataMusic.set_value v m))) = false
  /\ (s = DisplayPinDataMusic.text (snd (DisplayPinDataMusic.set_value v m))
      \/ exists rest,
           s = DisplayPinDataMusic.text
                 (snd (DisplayPinDataMusic.set_value v m))
               +:+ ":" +:+ rest).
Proof.
  intros Hnew Hv _.
  assert (DisplayPinDataMusic.set_value v m
          = (Ok tt,
             DisplayPinDataMusic.set_text (split_colon_first s)
               (DisplayPinDataMusic.set__value v m))) as ->.
  { rewrite (music_set_value_new m v Hnew).
    destruct Hv as [->|(l & -> & Hl)]; [reflexivity|].
    unfold bind, lift, ret. simpl. by rewrite Hl. }
  split; [done|]. simpl. split; [apply split_colon_first_no_colon|].
  destruct (split_colon_first_prefix s) as [[_ ->]|[_ Hrest]]; eauto.
Qed.

Lemma music_shows_name_witness :
  DisplayPinDataMusic.set_value (PTuple [PNone; PStr "C4:octave4"; PInt 1])
    (DisplayPinDataMusic.mk PNone "" [])
  = (Ok tt,
     DisplayPinDataMusic.mk (PTuple [PNone; PStr "C4:octave4"; PInt 1]) "C4"
                            [MSetText "C4"]).
Proof.
  destruct (music_shows_name (DisplayPinDataMusic.mk PNone "" [])
              (PTuple [PNone; PStr "C4:octave4"; PInt 1]) "C4:octave4")
    as [H _]; [reflexivity|right; by eexists|simpl; lia|exact H].
Defined.

(** X15: a note widget given a tuple it does not hold already, whose
    second item is [None] and whose first item is a number, returns and
    shows that number in decimal followed by ["Hz"] (a text taken to fit
    the 7 glyphs of the label); two different frequencies never show the
    same text. *)
Theorem music_shows_frequency
    (m : DisplayPinDataMusic.t) (l : list pyval) (f : pyval) (z : Z) :
  py_eqb (DisplayPinDataMusic._value m) (PTuple l) = false ->
  l !! 1%nat = Some PNone ->
  l !! 0%nat = Some f ->
  as_num f = Some z ->
  (String.length (format_hz z) <= 7)%nat ->
  DisplayPinDataMusic.set_value (PTuple l) m
  = (Ok tt,
     DisplayPinDataMusic.set_text (pretty z +:+ "Hz")
       (DisplayPinDataMusic.set__value (PTuple l) m))
  /\ forall z', format_hz z' = format_hz z -> z' = z.
Proof.
  intros Hnew H1 H0 Hf _. split.
  - rewrite (music_set_value_new m _ Hnew).
    unfold bind, lift, ret. simpl. rewrite H1. simpl. rewrite H0.
    destruct f; simpl in Hf; try discriminate; injection Hf as <-;
      reflexivity.
  - intros z' Heq. unfold format_hz in Heq.
    apply (inj pretty).
    revert Heq. generalize (pretty z') (pretty z).
    intros a. induction a as [|c a IH]; intros [|d b]; simpl.
    + done.
    + intros H. destruct b as [|? [|? [|? ?]]]; discriminate.
    + intros H. destruct a as [|? [|? [|? ?]]]; discriminate.
    + intros [= -> H]. f_equal. by apply IH.
Qed.

Lemma music_shows_frequency_witness :
  DisplayPinDataMusic.set_value (PTuple [PInt 262; PNone])
    (DisplayPinDataMusic.mk (PStr "C4") "C4" [MSetText "C4"])
  = (Ok tt,
     DisplayPinDataMusic.mk (PTuple [PInt 262; PNone]) "262Hz"
                            [MSetText "C4"; MSetText "262Hz"]).
Proof.
  destruct (music_shows_frequency
              (DisplayPinDataMusic.mk (PStr "C4") "C4" [MSetText "C4"])
              [PInt 262; PNone] (PInt 262) 262)
    as [H _];
    [reflexivity|reflexivity|reflexivity|reflexivity|vm_compute; lia
     |exact H].
Defined.

(** X16: when [value[1]] raises for a value that is not a string and is
    not held already ([None], a number, a tuple of fewer than two items),
    the setter raises that exception with the value already stored and
    the text left as it was; the same assignment made again then returns
    without raising and without writing, so the label keeps showing the
    text of the value before. *)
Theorem music_rejected_value_sticks
    (m : DisplayPinDataMusic.t) (v : pyval) (e : exn) :
  py_eqb (DisplayPinDataMusic._value m) v = false ->
  isinstance_str v = false ->
  py_getitem v 1 = Raise e ->
  DisplayPinDataMusic.set_value v m
  = (Raise e, DisplayPinDataMusic.set__value v m)
  /\ DisplayPinDataMusic.text (snd (DisplayPinDataMusic.set_value v m))
     = DisplayPinDataMusic.text m
  /\ DisplayPinDataMusic.set_value v (DisplayPinDataMusic.set__value v m)
     = (Ok tt, DisplayPinDataMusic.set__value v m).
Proof.
  intros Hnew Hstr Hget.
  assert (DisplayPinDataMusic.set_value v m
          = (Raise e, DisplayPinDataMusic.set__value v m)) as ->.
  { rewrite (music_set_value_new m v Hnew), Hstr.
    unfold bind, lift. by rewrite Hget. }
  repeat split.
  rewrite music_set_value_unfold. simpl. by rewrite py_eqb_refl.
Qed.

Lemma music_rejected_value_sticks_witness :
  DisplayPinDataMusic.set_value PNone
    (DisplayPinDataMusic.mk (PStr "C4") "C4" [MSetText "C4"])
  = (Raise TypeError,
     DisplayPinDataMusic.mk PNone "C4" [MSetText "C4"])
  /\ DisplayPinDataMusic.set_value (PTuple [PInt 262])
       (DisplayPinDataMusic.mk (PStr "C4") "C4" [MSetText "C4"])
     = (Raise IndexError,
        DisplayPinDataMusic.mk (PTuple [PInt 262]) "C4" [MSetText "C4"]).
Proof.
  split.
  - destruct (music_rejected_value_sticks
                (DisplayPinDataMusic.mk (PStr "C4") "C4" [MSetText "C4"])
                PNone TypeError)
      as [H _]; [reflexivity|reflexivity|reflexivity|exact H].
  - destruct (music_rejected_value_sticks
                (DisplayPinDataMusic.mk (PStr "C4") "C4" [MSetText "C4"])
                (PTuple [PInt 262]) IndexError)
      as [H _]; [reflexivity|reflexivity|reflexivity|exact H].
Defined.

End TextWidgets.

(** ** Further properties of the panel *)

Section PinMore.
Import DisplayPin.

(** A widget as the panel builds it takes [None] without any change. *)
Lemma make_data_fresh terminal_bb mode value_range data_width height w :
  make_data terminal_bb mode value_range data_width height = Ok (Some w) ->
  widget_set_value PNone w = (Ok tt, w).
Proof.
  unfold make_data, read_local, DisplayPinDataDigital.init,
    DisplayPinDataTouch.init, DisplayPinDataBooleanText.init,
    DisplayPinDataMusic.init.
  repeat (match goal with
          | |- context [if ?c then _ else _] => destruct c
          | |- context [match ?o with Some _ => _ | None => _ end] =>
              destruct o
          | |- context [floordiv ?a ?b] => destruct (floordiv a b)
          end; simpl; try discriminate);
    intros [= <-]; reflexivity.
Qed.


(** X17: building a panel with a value is building it without one and
    then assigning the value: same panel, or same exception. *)
Theorem pin_init_is_init_then_assign
    (terminal_bb : Z * Z) (name mode units : string) (v : pyval)
    (width height : Z) (font_bb : Z * Z) :
  init terminal_bb name mode units v width height font_bb
  = match init terminal_bb name mode units PNone width height font_bb with
    | Raise e => Raise e
    | Ok p => match set_value v p with
              | (Ok _, p') => Ok p'
              | (Raise e, _) => Raise e
              end
    end.
Proof.
  unfold init. destruct (floordiv _ _) as [scale|]; [|done]. cbv zeta.
  destruct (make_data _ _ _ _ _) as [[w|]|] eqn:Hdata; [| |done].
  - pose proof (make_data_fresh _ _ _ _ _ _ Hdata) as Hw.
    unfold set_value at 2. unfold bind, get, modify, ret. simpl.
    rewrite Hw. simpl.
    unfold set_value, bind, get, modify, ret. simpl.
    by destruct (widget_set_value v w) as [[[]|] ?].
  - reflexivity.
Qed.





(** X20: a font whose bounding box is 0 or 1 high makes the constructor
    raise [ZeroDivisionError] on the scale, whatever the other
    arguments. *)
Theorem pin_flat_font_raises
    (terminal_bb : Z * Z) (name mode units : string) (v : pyval)
    (width height : Z) (font_bb : Z * Z) :
  0 <= font_bb.2 <= 1 ->
  init terminal_bb name mode units v width height font_bb
  = Raise ZeroDivisionError.
Proof.
  intros Hfb. unfold init, floordiv.
  assert ((font_bb.2 * 9) `div` 14 = 0) as ->; [|reflexivity].
  apply Z.div_small. lia.
Qed.

Lemma pin_flat_font_raises_witness :
  init (6, 14) "a0" "unused" "CP" PNone 120 18 (1, 1)
  = Raise ZeroDivisionError.
Proof.
  apply (pin_flat_font_raises (6, 14) "a0" "unused" "CP" PNone 120 18 (1, 1)).
  simpl. lia.
Defined.

(** X21: the mode setter does not rewire the panel: assigning a value
    after a change of mode runs the same widget setter with the same
    outcome as before the change, and the two assignments commute. *)
Theorem pin_mode_does_not_rewire (self : t) (new_mode : string) (v : pyval) :
  _data (snd (set_mode new_mode self)) = _data self
  /\ value (snd (set_mode new_mode self)) = value self
  /\ set_value v (snd (set_mode new_mode self))
     = (fst (set_value v self),
        snd (set_mode new_mode (snd (set_value v self)))).
Proof.
  unfold set_mode, set_value, value, bind, get, modify, ret. simpl.
  repeat split.
  destruct (_data self) as [w|]; [|done].
  by destruct (widget_set_value v w).
Qed.








End PinMore.
